(** * AIOps anomaly detection: the detection-and-grouping engine

    A shallow embedding of [app/detection/baseline.py],
    [app/detection/ml_detectors.py], [app/detection/engine.py], the
    parts of [app/core/config.py] they read and the parts of
    [app/api/models.py] and [app/api/endpoints/detect.py] that depend on
    them, followed by the properties of the scorers, of the detection
    orchestrator, of the event grouper and of the priority ranker.

    Python's [float] is an interface here ([Float]) with two instances:
    - [binary64]: IEEE 754 double precision, the arithmetic the program
      runs on (Rocq's primitive floats), used to evaluate the code on
      concrete inputs;
    - [exact]: rational numbers with a not-a-number value, the same
      operations without rounding, used for statements about all inputs.
    Every definition of the program is written once, over the interface. *)

From Stdlib Require Import ZArith QArith Qabs Qround Qminmax Floats Lia Lqa List String.
From Stdlib Require Import Sorted Permutation.
From stdpp Require Import base gmap strings.
Import ListNotations.

Set Warnings "-inexact-float".
Local Open Scope Z_scope.

(** ** Exceptions and results of calls that may raise *)

Inductive exn :=
| ValueError (msg : string)
| ImportError (msg : string)
| AttributeError (msg : string)
| KeyError (msg : string)
| IndexError (msg : string)
| Exception (msg : string).

Inductive outcome (A : Type) :=
| Returns (a : A)
| Raises (e : exn).
Arguments Returns {A} a.
Arguments Raises {A} e.

#[export] Instance outcome_ret : MRet outcome := @Returns.
#[export] Instance outcome_bind : MBind outcome := fun A B k c =>
  match c with
  | Returns a => k a
  | Raises e => Raises e
  end.

(** [try: c except Exception: h] *)
Definition try_except {A} (c : outcome A) (h : exn -> A) : A :=
  match c with
  | Returns a => a
  | Raises e => h e
  end.

(** ** Floating-point numbers *)

Class Float (F : Type) := {
  of_int : Z -> F;          (* float(n) of a Python int *)
  truediv : Z -> Z -> F;    (* n / d of two Python ints, d nonzero *)
  nan : F;
  is_nan : F -> bool;
  fadd : F -> F -> F;
  fsub : F -> F -> F;
  fmul : F -> F -> F;
  fdiv : F -> F -> F;
  fabs : F -> F;
  fsqrt : F -> F;
  feqb : F -> F -> bool;
  fltb : F -> F -> bool;
  fleb : F -> F -> bool;
  fround : nat -> F -> F    (* round(x, ndigits) *)
}.

Declare Scope py_scope.
Delimit Scope py_scope with py.
Infix "+" := fadd : py_scope.
Infix "-" := fsub : py_scope.
Infix "*" := fmul : py_scope.
Infix "/" := fdiv : py_scope.
Infix "==" := feqb (at level 70, no associativity) : py_scope.
Infix "<?" := fltb : py_scope.
Infix "<=?" := fleb : py_scope.
Notation "x >? y" := (fltb y x) : py_scope.

(** A decimal literal [m·10^-k]: [dec 3 1] is [0.3], [dec 1 6] is [1e-6]. *)
Definition dec `{Float F} (m : Z) (k : nat) : F := truediv m (10 ^ Z.of_nat k).

(** Round half to even of a rational to an integer. *)
Definition round_half_even (q : Q) : Z :=
  let f := Qfloor q in
  match Qcompare (q - inject_Z f) (1 # 2) with
  | Lt => f
  | Gt => f + 1
  | Eq => if Z.even f then f else f + 1
  end.

(** *** IEEE 754 binary64 *)

Module Binary64.

(** The rational a finite double stands for. *)
Definition value (x : float) : option Q :=
  match Prim2SF x with
  | S754_zero _ => Some 0%Q
  | S754_finite s m e =>
      Some (Qred (inject_Z (if s then Zneg m else Zpos m) * Qpower (inject_Z 2) e))
  | S754_infinity _ | S754_nan => None
  end.

Definition of_Z (n : Z) : float :=
  SF2Prim (binary_normalize prec emax n 0 false).

(** The double nearest to [n / d]. *)
Definition of_ratio (n d : Z) : float :=
  let sf z := match z with
              | Z0 => S754_zero false
              | Zpos p => S754_finite false p 0
              | Zneg p => S754_finite true p 0
              end in
  SF2Prim (SFdiv prec emax (sf n) (sf d)).

(** [round(x, ndigits)]: the double nearest to the decimal with
    [ndigits] digits after the point nearest to [x], ties to even. *)
Definition round (ndigits : nat) (x : float) : float :=
  match value x with
  | None => x
  | Some q =>
      let p := 10 ^ Z.of_nat ndigits in
      let k := round_half_even (q * inject_Z p) in
      if k =? 0 then (if PrimFloat.ltb x 0 then PrimFloat.neg_zero else PrimFloat.zero)
      else of_ratio k p
  end.

End Binary64.

#[export] Instance binary64 : Float float := {
  of_int := Binary64.of_Z;
  truediv := Binary64.of_ratio;
  nan := PrimFloat.nan;
  is_nan := PrimFloat.is_nan;
  fadd := PrimFloat.add;
  fsub := PrimFloat.sub;
  fmul := PrimFloat.mul;
  fdiv := PrimFloat.div;
  fabs := PrimFloat.abs;
  fsqrt := PrimFloat.sqrt;
  feqb := PrimFloat.eqb;
  fltb := PrimFloat.ltb;
  fleb := PrimFloat.leb;
  fround := Binary64.round
}.

(** *** Exact arithmetic *)

Module Exact.

(** A number in lowest terms, or not a number. The infinities are not
    represented: a division by zero gives [NaN]. *)
Inductive t := Num (q : Q) | NaN.

Definition lift1 (f : Q -> Q) (x : t) : t :=
  match x with Num a => Num (Qred (f a)) | NaN => NaN end.

Definition lift2 (f : Q -> Q -> Q) (x y : t) : t :=
  match x, y with Num a, Num b => Num (Qred (f a b)) | _, _ => NaN end.

Definition rel (r : Q -> Q -> bool) (x y : t) : bool :=
  match x, y with Num a, Num b => r a b | _, _ => false end.

Definition div (x y : t) : t :=
  match x, y with
  | Num a, Num b => if Qeq_bool b 0 then NaN else Num (Qred (a / b))
  | _, _ => NaN
  end.

(** Exact on the squares of rationals, rounded down to a multiple of
    [1 / Qden q] elsewhere. *)
Definition sqrt (x : t) : t :=
  match x with
  | Num a =>
      let q := Qred a in
      if Qle_bool 0 q
      then Num (Qred (Z.sqrt (Qnum q * Zpos (Qden q)) # Qden q))
      else NaN
  | NaN => NaN
  end.

Definition round (ndigits : nat) (x : t) : t :=
  match x with
  | Num a =>
      let p := inject_Z (10 ^ Z.of_nat ndigits) in
      Num (Qred (inject_Z (round_half_even (a * p)) / p))
  | NaN => NaN
  end.

End Exact.

#[export] Instance exact : Float Exact.t := {
  of_int n := Exact.Num (inject_Z n);
  truediv n d := Exact.div (Exact.Num (inject_Z n)) (Exact.Num (inject_Z d));
  nan := Exact.NaN;
  is_nan x := match x with Exact.NaN => true | _ => false end;
  fadd := Exact.lift2 Qplus;
  fsub := Exact.lift2 Qminus;
  fmul := Exact.lift2 Qmult;
  fdiv := Exact.div;
  fabs := Exact.lift1 Qabs;
  fsqrt := Exact.sqrt;
  feqb := Exact.rel Qeq_bool;
  fltb := Exact.rel (fun a b => negb (Qle_bool b a));
  fleb := Exact.rel Qle_bool;
  fround := Exact.round
}.

(** *** The order of the numbers

    What the comparisons of both arithmetics satisfy; [<] and [<=] do
    not hold of a not-a-number. *)

Class FloatOrder (F : Type) `{Float F} := {
  ltb_irrefl : forall x : F, fltb x x = false;
  ltb_leb : forall x y : F, fltb x y = true -> fleb x y = true;
  leb_total : forall x y : F,
    is_nan x = false -> is_nan y = false -> fltb x y = false -> fleb y x = true;
  leb_trans : forall x y z : F, fleb x y = true -> fleb y z = true -> fleb x z = true;
  ltb_eqb : forall x y p : F,
    fltb x y = true -> feqb x p = true -> feqb y p = true -> False
}.

(** The place of a double in the order of binary64: the infinities at
    both ends, the zeros in the middle, the finite numbers by sign, then
    exponent, then mantissa. *)
Definition sf_key (x : spec_float) : option (Z * Z * Z) :=
  match x with
  | S754_nan => None
  | S754_infinity true => Some (0, 0, 0)
  | S754_finite true m e => Some (1, - e, Zneg m)
  | S754_zero _ => Some (2, 0, 0)
  | S754_finite false m e => Some (3, e, Zpos m)
  | S754_infinity false => Some (4, 0, 0)
  end.

Definition lex (a b : Z * Z * Z) : comparison :=
  let '(a1, a2, a3) := a in
  let '(b1, b2, b3) := b in
  match a1 ?= b1 with
  | Eq => match a2 ?= b2 with Eq => a3 ?= b3 | c => c end
  | c => c
  end.

(** ** Python and numpy built-ins *)

Section Builtins.
Context `{Float F}.
Local Open Scope py_scope.

(** [max(a, b)] and [min(a, b)]: the first argument unless the second
    is strictly beyond it. *)
Definition py_max (a b : F) : F := if b >? a then b else a.
Definition py_min (a b : F) : F := if b <? a then b else a.

Definition any (l : list bool) : bool := existsb id l.

Definition len {A} (l : list A) : Z := Z.of_nat (length l).

(** [timedelta.total_seconds()] of a difference of two instants, which
    are counted in microseconds. *)
Definition total_seconds (microseconds : Z) : F := truediv microseconds 1000000.

(** [l.sort(key=key, reverse=True)]: largest key first, and stable: an
    element goes behind the elements that came before it and whose key
    is not smaller. Only [<] on keys is used, as Python does. *)
Fixpoint insert_reverse {A} (key : A -> F) (x : A) (l : list A) : list A :=
  match l with
  | [] => [x]
  | y :: l' => if key x <? key y then y :: insert_reverse key x l' else x :: l
  end.

Definition sort_reverse {A} (key : A -> F) (l : list A) : list A :=
  fold_right (insert_reverse key) [] l.
End Builtins.

Module np.
Section Numpy.
Context `{Float F}.
Local Open Scope py_scope.

Definition zeros_bool (n : nat) : list bool := repeat false n.
Definition zeros (n : nat) : list F := repeat (of_int 0) n.

(** [add.reduce]: from left to right (numpy adds an array of eight or
    more elements in blocks, which is the same sum in exact arithmetic
    and may differ in the last bits in binary64). *)
Definition sum (X : list F) : F := fold_left fadd X (of_int 0).

(** [.sum()] of an array of booleans *)
Definition sum_bool (b : list bool) : Z :=
  fold_left (fun n (x : bool) => if x then (n + 1)%Z else n) b 0%Z.

Definition mean (X : list F) : F := sum X / of_int (len X).

(** [np.std], population standard deviation ([ddof = 0]). *)
Definition std (X : list F) : F :=
  let arrmean := mean X in
  let x := map (fun a => a - arrmean) X in
  let x := map (fun d => d * d) x in
  fsqrt (sum x / of_int (len X)).

Definition abs (X : list F) : list F := map fabs X.

Definition maximum (a b : F) : F :=
  if is_nan a then a else if is_nan b then b else if a <? b then b else a.
Definition minimum (a b : F) : F :=
  if is_nan a then a else if is_nan b then b else if b <? a then b else a.
Definition clip (a a_min a_max : F) : F := minimum (maximum a a_min) a_max.
End Numpy.
End np.

Module pd.
Section Pandas.
Context `{Float F}.
Local Open Scope py_scope.

(** [Series.rolling(window=w, center=False)]: at each position the
    trailing window of [w] values, once [w] values have been seen
    (pandas updates the sums of a window from those of the window
    before, which is the same in exact arithmetic and may differ in the
    last bits in binary64). *)
Definition rolling (w : Z) (X : list F) : outcome (list (option (list F))) :=
  if (w <? 0)%Z then Raises (ValueError "window must be an integer 0 or greater")
  else
    Returns (map (fun i =>
               if (Z.of_nat (S i) <? w)%Z then None
               else Some (firstn (Z.to_nat w) (skipn (S i - Z.to_nat w) X)))
             (seq 0 (length X))).

(** [.mean()] of a window: not a number until the window is full. *)
Definition mean (window : option (list F)) : F :=
  match window with
  | Some l => if (len l =? 0)%Z then nan else np.sum l / of_int (len l)
  | None => nan
  end.

(** [.std()] of a window: the sample standard deviation ([ddof = 1]). *)
Definition std (window : option (list F)) : F :=
  match window with
  | Some l =>
      if (len l <=? 1)%Z then nan
      else
        let m := np.sum l / of_int (len l) in
        let ssqdm := np.sum (map (fun a => (a - m) * (a - m)) l) in
        fsqrt (ssqdm / of_int (len l - 1))
  | None => nan
  end.

(** [Series.replace(to_replace, value)] *)
Definition replace (to_replace value : F) (s : list F) : list F :=
  map (fun x => if x == to_replace then value else x) s.

(** [s[:n] = value], for [n] that is not negative *)
Definition set_head (n : Z) (value : F) (s : list F) : list F :=
  repeat value (Nat.min (Z.to_nat n) (length s)) ++ skipn (Z.to_nat n) s.
End Pandas.
End pd.

(** ** [app/core/config.py] *)

Record Settings {F : Type} := {
  default_contamination : F;
  default_window_size : Z;
  z_score_threshold : F;
  anomaly_grouping_window_seconds : Z;
  sensitivity_low : F;
  sensitivity_medium : F;
  sensitivity_high : F
}.
Arguments Settings F : clear implicits.

(** The values of the class [Settings], when the environment overrides none. *)
Definition default_settings `{Float F} : Settings F := {|
  default_contamination := dec 1 2;
  default_window_size := 10;
  z_score_threshold := of_int 3;
  anomaly_grouping_window_seconds := 300;
  sensitivity_low := dec 5 2;
  sensitivity_medium := dec 1 2;
  sensitivity_high := dec 5 3
|}.

(** ** [app/detection/baseline.py] *)

Module ZScoreDetector.
Section ZScoreDetector.
Context `{Float F}.
Local Open Scope py_scope.

Record t := {
  threshold : F;
  mean_ : option F;
  std_ : option F
}.

Definition __init__ (threshold : F) : t :=
  {| threshold := threshold; mean_ := None; std_ := None |}.

Definition fit (self : t) (X : list F) : t :=
  {| threshold := threshold self;
     mean_ := Some (np.mean X);
     std_ := Some (np.std X) |}.

Definition predict (self : t) (X : list F) : outcome (list bool * list F) :=
  match mean_ self, std_ self with
  | Some mean, Some std =>
      if std == of_int 0 then
        Returns (np.zeros_bool (length X), np.zeros (length X))
      else
        let z_scores := np.abs (map (fun x => (x - mean) / std) X) in
        let anomalies := map (fun z => z >? threshold self) z_scores in
        let scores :=
          map (fun z => np.clip (z / (threshold self * of_int 2)) (of_int 0) (of_int 1))
              z_scores in
        Returns (anomalies, scores)
  | _, _ => Raises (ValueError "Detector precisa ser fitted primeiro")
  end.

Definition fit_predict (self : t) (X : list F) : outcome (list bool * list F) :=
  predict (fit self X) X.
End ZScoreDetector.
End ZScoreDetector.

Module MovingAverageDetector.
Section MovingAverageDetector.
Context `{Float F}.
Local Open Scope py_scope.

Record t := {
  window_size : Z;
  threshold : F
}.

Definition predict (self : t) (X : list F) : outcome (list bool * list F) :=
  if (len X <? window_size self)%Z then
    Returns (np.zeros_bool (length X), np.zeros (length X))
  else
    windows ← pd.rolling (window_size self) X;
    let rolling_mean := map pd.mean windows in
    let rolling_std := map pd.std windows in
    let rolling_std := pd.replace (of_int 0) (dec 1 6) rolling_std in
    let z_scores :=
      np.abs (zip_with fdiv (zip_with fsub X rolling_mean) rolling_std) in
    let z_scores := pd.set_head (window_size self) (of_int 0) z_scores in
    let anomalies := map (fun z => z >? threshold self) z_scores in
    let scores :=
      map (fun z => np.clip (z / (threshold self * of_int 2)) (of_int 0) (of_int 1))
          z_scores in
    Returns (anomalies, scores).

Definition fit_predict (self : t) (X : list F) : outcome (list bool * list F) :=
  predict self X.
End MovingAverageDetector.
End MovingAverageDetector.

(** ** [app/detection/ml_detectors.py], [app/detection/advanced.py]

    The models of scikit-learn and dtaianomaly are not part of the
    repository: what they return is a parameter. *)

Record Externals {F : Type} := {
  (** [IsolationForest(contamination, ...)] fitted on the features:
      [predict(features) == -1] and [1 / (1 + exp(score_samples(features)))] *)
  IsolationForest_fit_predict : F -> list (F * F * F) -> outcome (list bool * list F);
  (** [LocalOutlierFactor(n_neighbors, contamination)] fitted on the
      features: [fit_predict(features) == -1] and the normalised outlier
      factors *)
  LocalOutlierFactor_fit_predict : Z -> F -> list (F * F * F) -> outcome (list bool * list F);
  (** whether [from dtaianomaly import ...] succeeded *)
  DTAI_AVAILABLE : bool;
  (** [DTAIDetector("matrix-profile", contamination).fit_predict(X)] *)
  DTAIDetector_fit_predict : F -> list F -> outcome (list bool * list F)
}.
Arguments Externals F : clear implicits.

Section Features.
Context `{Float F}.
Local Open Scope py_scope.

(** [_prepare_features] of both detectors: for each point its value,
    its difference with the point before (the first point being its own
    predecessor) and the rate of change (0 for the first point and after
    a value equal to 0). [X[0]] raises on the empty series. *)
Definition _prepare_features (X : list F) : outcome (list (F * F * F)) :=
  match X with
  | [] => Raises (IndexError "index 0 is out of bounds for axis 0 with size 0")
  | x0 :: _ =>
      let diff := zip_with fsub X (x0 :: X) in
      let rate :=
        zip_with (fun d x => if negb (x == of_int 0) then d / x else of_int 0)
                 (tail diff) X in
      let rate := of_int 0 :: rate in
      Returns (zip (zip X diff) rate)
  end.
End Features.

Module IsolationForestDetector.
Section IsolationForestDetector.
Context `{Float F} (ext : Externals F).

Definition fit_predict (contamination : F) (X : list F) : outcome (list bool * list F) :=
  X_features ← _prepare_features X;
  IsolationForest_fit_predict ext contamination X_features.
End IsolationForestDetector.
End IsolationForestDetector.

Module LOFDetector.
Section LOFDetector.
Context `{Float F} (ext : Externals F).

Record t := {
  contamination : F;
  n_neighbors : Z
}.

Definition __init__ (contamination : F) (n_neighbors : Z) : t :=
  {| contamination := contamination; n_neighbors := Z.min n_neighbors 20 |}.

Definition fit_predict (self : t) (X : list F) : outcome (list bool * list F) :=
  X_features ← _prepare_features X;
  let n_neighbors := Z.min (n_neighbors self) (len X - 1) in
  if n_neighbors <? 2 then
    Returns (np.zeros_bool (length X), np.zeros (length X))
  else
    LocalOutlierFactor_fit_predict ext n_neighbors (contamination self) X_features.
End LOFDetector.
End LOFDetector.

Module ProphetDetector.
(** The class defines [fit] and [predict] and no [fit_predict]: the
    call [detector.fit_predict(X)] of the engine raises. *)
Definition fit_predict {F} (X : list F) : outcome (list bool * list F) :=
  Raises (AttributeError "'ProphetDetector' object has no attribute 'fit_predict'").
End ProphetDetector.

(** ** [app/detection/engine.py] *)

(** The dictionary of an event while the series is scanned. Instants
    are counted in microseconds. *)
Module Event.
Record t {F : Type} := {
  start_time : Z;
  end_time : Z;
  metric : string;
  max_score : F;
  anomaly_points : Z;
  peak_value : F;
  timestamps : list Z;
  values : list F
}.
Arguments t F : clear implicits.
End Event.

(** The same dictionary once [duration_seconds] and [priority] are set. *)
Module RankedEvent.
Record t {F : Type} := {
  event : Event.t F;
  duration_seconds : F;
  priority : F
}.
Arguments t F : clear implicits.
End RankedEvent.

(** The dictionary [detect] returns. *)
Module Result.
Record t {F : Type} := {
  method : string;
  anomalies : list bool;
  scores : list F;
  timestamps : list Z;
  values : list F;
  anomaly_count : Z;
  detection_time_ms : F
}.
Arguments t F : clear implicits.
End Result.

(** What a detection method takes (the series and the contamination)
    and returns (the flags and the scores). *)
Abbreviation scorer F := (list F -> F -> outcome (list bool * list F)) (only parsing).

Module AnomalyDetectionEngine.
Section AnomalyDetectionEngine.
Context `{Float F} (settings : Settings F) (ext : Externals F).
Local Open Scope py_scope.

Definition _detect_zscore : scorer F := fun X contamination =>
  let detector := ZScoreDetector.__init__ (z_score_threshold settings) in
  ZScoreDetector.fit_predict detector X.

Definition _detect_moving_average : scorer F := fun X contamination =>
  let detector :=
    {| MovingAverageDetector.window_size := default_window_size settings;
       MovingAverageDetector.threshold := z_score_threshold settings |} in
  MovingAverageDetector.fit_predict detector X.

Definition _detect_isolation_forest : scorer F := fun X contamination =>
  IsolationForestDetector.fit_predict ext contamination X.

Definition _detect_lof : scorer F := fun X contamination =>
  let detector := LOFDetector.__init__ contamination 20 in
  LOFDetector.fit_predict ext detector X.

Definition _detect_prophet : scorer F := fun X contamination =>
  match ProphetDetector.fit_predict X with
  | Raises (ImportError _) => _detect_isolation_forest X contamination
  | r => r
  end.

Definition _detect_dtai_auto : scorer F := fun X contamination =>
  if negb (DTAI_AVAILABLE ext) then _detect_isolation_forest X contamination
  else DTAIDetector_fit_predict ext contamination X.

Definition methods : gmap string (scorer F) :=
  list_to_map [
    ("z-score", _detect_zscore);
    ("moving-average", _detect_moving_average);
    ("isolation-forest", _detect_isolation_forest);
    ("lof", _detect_lof);
    ("prophet", _detect_prophet);
    ("dtai-auto", _detect_dtai_auto)
  ].

Definition get_contamination_by_sensitivity (sensitivity : string) : F :=
  let sensitivity_map : gmap string F :=
    list_to_map [
      ("low", sensitivity_low settings);
      ("medium", sensitivity_medium settings);
      ("high", sensitivity_high settings)
    ] in
  default (default_contamination settings) (sensitivity_map !! sensitivity).

Definition _empty_result (length : nat) : Result.t F :=
  {| Result.method := "none";
     Result.anomalies := repeat false length;
     Result.scores := repeat (of_int 0) length;
     Result.timestamps := [];
     Result.values := [];
     Result.anomaly_count := 0;
     Result.detection_time_ms := of_int 0 |}.

(** [clock] holds the two readings of [time.time()]. *)
Definition detect (clock : F * F) (timestamps : list Z) (values : list F)
    (method sensitivity : string) : Result.t F :=
  let start_time := fst clock in
  let X := values in
  if (len X =? 0)%Z then _empty_result 0
  else
    let method :=
      match methods !! method with
      | None => "isolation-forest"
      | Some _ => method
      end in
    let contamination := get_contamination_by_sensitivity sensitivity in
    let '(anomalies, scores) :=
      try_except
        (match methods !! method with
         | Some detect_method => detect_method X contamination
         | None => Raises (KeyError method)
         end)
        (fun e => (np.zeros_bool (length X), np.zeros (length X))) in
    let detection_time := (snd clock - start_time) * of_int 1000 in
    {| Result.method := method;
       Result.anomalies := anomalies;
       Result.scores := scores;
       Result.timestamps := timestamps;
       Result.values := values;
       Result.anomaly_count := np.sum_bool anomalies;
       Result.detection_time_ms := fround 2 detection_time |}.

Definition _calculate_priority (max_score : F) (points : Z) (duration : F) : F :=
  let score_weight := dec 5 1 in
  let points_weight := dec 3 1 in
  let duration_weight := dec 2 1 in
  let score_norm := max_score in
  let points_norm := py_min (truediv points 10) (of_int 1) in
  let duration_norm := py_min (duration / of_int 600) (of_int 1) in
  let priority :=
    score_weight * score_norm +
    points_weight * points_norm +
    duration_weight * duration_norm in
  fround 3 priority.

Definition new_event (metric_name : string) (ts : Z) (score val : F) : Event.t F :=
  {| Event.start_time := ts;
     Event.end_time := ts;
     Event.metric := metric_name;
     Event.max_score := score;
     Event.anomaly_points := 1;
     Event.peak_value := val;
     Event.timestamps := [ts];
     Event.values := [val] |}.

(** The assignments of the branch that continues the open event, in
    the order the source makes them. *)
Definition extend_event (current_event : Event.t F) (ts : Z) (score val : F) : Event.t F :=
  let e := current_event in
  let e := {| Event.start_time := Event.start_time e;
              Event.end_time := ts;
              Event.metric := Event.metric e;
              Event.max_score := py_max (Event.max_score e) score;
              Event.anomaly_points := Event.anomaly_points e + 1;
              Event.peak_value := Event.peak_value e;
              Event.timestamps := Event.timestamps e ++ [ts];
              Event.values := Event.values e ++ [val] |} in
  if score >? Event.max_score e then
    {| Event.start_time := Event.start_time e;
       Event.end_time := Event.end_time e;
       Event.metric := Event.metric e;
       Event.max_score := Event.max_score e;
       Event.anomaly_points := Event.anomaly_points e;
       Event.peak_value := val;
       Event.timestamps := Event.timestamps e;
       Event.values := Event.values e |}
  else e.

(** One turn of the loop over [zip(timestamps, anomalies, scores,
    values)]; the state is [(events, current_event)]. *)
Definition step (metric_name : string)
    (state : list (Event.t F) * option (Event.t F))
    (point : Z * bool * F * F) : list (Event.t F) * option (Event.t F) :=
  let '(events, current_event) := state in
  let '(ts, is_anom, score, val) := point in
  if negb is_anom then
    match current_event with
    | Some e => (events ++ [e], None)
    | None => (events, None)
    end
  else
    match current_event with
    | None => (events, Some (new_event metric_name ts score val))
    | Some e =>
        let time_diff := total_seconds (ts - Event.end_time e) in
        if time_diff <=? of_int (anomaly_grouping_window_seconds settings) then
          (events, Some (extend_event e ts score val))
        else
          (events ++ [e], Some (new_event metric_name ts score val))
    end.

(** The events in the order the scan closes them. *)
Definition scan (metric_name : string) (points : list (Z * bool * F * F))
    : list (Event.t F) :=
  let '(events, current_event) := fold_left (step metric_name) points ([], None) in
  match current_event with
  | Some e => events ++ [e]
  | None => events
  end.

Definition rank (e : Event.t F) : RankedEvent.t F :=
  let duration := total_seconds (Event.end_time e - Event.start_time e) in
  {| RankedEvent.event := e;
     RankedEvent.duration_seconds := duration;
     RankedEvent.priority :=
       _calculate_priority (Event.max_score e) (Event.anomaly_points e) duration |}.

Definition group_anomalies (timestamps : list Z) (anomalies : list bool)
    (scores values : list F) (metric_name : string) : list (RankedEvent.t F) :=
  if negb (any anomalies) then []
  else
    let events := scan metric_name (zip (zip (zip timestamps anomalies) scores) values) in
    let events := map rank events in
    sort_reverse RankedEvent.priority events.
End AnomalyDetectionEngine.
End AnomalyDetectionEngine.

(** ** [app/api/models.py], [app/api/endpoints/detect.py] *)

(** The methods and the sensitivities the model [DetectionRequest]
    accepts. *)
Module DetectionRequest.
Definition method : list string :=
  ["z-score"; "moving-average"; "isolation-forest"; "lof"; "dtai-auto"].
Definition sensitivity : list string := ["low"; "medium"; "high"].
End DetectionRequest.

(** The percentage [_process_single_series] reports for a series:
    [round((anomaly_count / total_points * 100) if total_points > 0 else 0, 2)]. *)
Definition anomaly_percentage `{Float F} (anomaly_count total_points : Z) : F :=
  fround 2
    (if 0 <? total_points
     then fmul (truediv anomaly_count total_points) (of_int 100)
     else of_int 0).

(** ** Vocabulary of the statements *)

Import AnomalyDetectionEngine.

(** The names [detect] recognises: the keys of [self.methods]. *)
Definition method_names : list string :=
  ["z-score"; "moving-average"; "isolation-forest"; "lof"; "prophet"; "dtai-auto"].

(** The scorer [detect] runs for a method name: the one registered
    under it, the isolation forest for any other name. *)
Definition selected_scorer `{Float F} (settings : Settings F) (ext : Externals F)
    (method : string) : scorer F :=
  match methods settings ext !! method with
  | Some detect_method => detect_method
  | None => _detect_isolation_forest ext
  end.

(** The flags and the scores a scorer returns are as many as the points
    of the series. *)
Definition keeps_shape `{Float F} (f : scorer F) : Prop :=
  forall X contamination anomalies scores,
    f X contamination = Returns (anomalies, scores) ->
    length anomalies = length X /\ length scores = length X.

(** The models of scikit-learn and dtaianomaly return one prediction and
    one score for each sample. *)
Definition externals_keep_shape `{Float F} (ext : Externals F) : Prop :=
  (forall c features anomalies scores,
     IsolationForest_fit_predict ext c features = Returns (anomalies, scores) ->
     length anomalies = length features /\ length scores = length features) /\
  (forall k c features anomalies scores,
     LocalOutlierFactor_fit_predict ext k c features = Returns (anomalies, scores) ->
     length anomalies = length features /\ length scores = length features) /\
  keeps_shape (fun X c => DTAIDetector_fit_predict ext c X).

(** The number of flags that are set. *)
Definition count_true (flags : list bool) : Z :=
  Z.of_nat (count_occ Bool.bool_dec flags true).

(** The per-point results the caller of [detect] assembles:
    [zip(timestamps, values, result["anomalies"], result["scores"])]. *)
Definition points_of {F} (timestamps : list Z) (values : list F) (r : Result.t F)
    : list (Z * F * bool * F) :=
  zip (zip (zip timestamps values) (Result.anomalies r)) (Result.scores r).

(** A number of the exact arithmetic and the rational it stands for. *)
Definition is_num (x : Exact.t) (q : Q) : Prop :=
  match x with
  | Exact.Num a => (a == q)%Q
  | Exact.NaN => False
  end.

(** The priority as the specification states it, over the rationals:
    [0.5·max_score + 0.3·min(point_count/10, 1)
     + 0.2·min(duration_seconds/600, 1)], rounded to 3 decimal places. *)
Definition round_3_places (q : Q) : Q :=
  (inject_Z (round_half_even (q * 1000)) / 1000)%Q.

Definition priority_spec (max_score : Q) (point_count : Z) (duration_seconds : Q) : Q :=
  round_3_places
    ((5 # 10) * max_score
     + (3 # 10) * Qmin (inject_Z point_count / 10) 1
     + (2 # 10) * Qmin (duration_seconds / 600) 1)%Q.

(** The cold start of the windowed scorer on the series [X]: it returns
    a flag and a score for each point, the points before [window_size]
    are not flagged and score 0, and a series shorter than [window_size]
    is all normal. *)
Definition cold_start `{Float F} (window_size : Z) (X : list F)
    (r : outcome (list bool * list F)) : Prop :=
  exists anomalies scores,
    r = Returns (anomalies, scores) /\
    length anomalies = length X /\
    length scores = length X /\
    (forall i : nat,
       Z.of_nat i < window_size -> (i < length X)%nat ->
       anomalies !! i = Some false /\ scores !! i = Some (of_int 0)) /\
    (len X < window_size ->
     anomalies = repeat false (length X) /\ scores = repeat (of_int 0) (length X)).

(** An installation on which the detectors of scikit-learn and
    dtaianomaly fail. *)
Definition failing_externals {F} : Externals F := {|
  IsolationForest_fit_predict := fun _ _ => Raises (Exception "IsolationForest");
  LocalOutlierFactor_fit_predict := fun _ _ _ => Raises (Exception "LocalOutlierFactor");
  DTAI_AVAILABLE := false;
  DTAIDetector_fit_predict := fun _ _ => Raises (ImportError "dtaianomaly")
|}.

(** The points the grouper scans:
    [zip(timestamps, anomalies, scores, values)]. *)
Definition points_zip {F} (timestamps : list Z) (anomalies : list bool)
    (scores values : list F) : list (Z * bool * F * F) :=
  zip (zip (zip timestamps anomalies) scores) values.

(** The events of a series in the order the scan closes them, each with
    its duration and priority: what [group_anomalies] sorts. *)
Definition chronological_events `{Float F} (settings : Settings F)
    (timestamps : list Z) (anomalies : list bool) (scores values : list F)
    (metric_name : string) : list (RankedEvent.t F) :=
  map rank
    (scan settings metric_name (points_zip timestamps anomalies scores values)).

(** Largest priority first. *)
Definition by_priority `{Float F} (a b : RankedEvent.t F) : Prop :=
  fleb (RankedEvent.priority b) (RankedEvent.priority a) = true.

(** The events of a list whose priority is [p], in the order of the list. *)
Definition with_priority `{Float F} (p : F) (l : list (RankedEvent.t F))
    : list (RankedEvent.t F) :=
  List.filter (fun e => feqb (RankedEvent.priority e) p) l.

(** The events of a state of the scan once the open event is closed. *)
Definition close {F} (state : list (Event.t F) * option (Event.t F)) : list (Event.t F) :=
  match state with
  | (events, Some e) => events ++ [e]
  | (events, None) => events
  end.

(** *** Vocabulary of the further properties *)

(** A score between 0 and 1, the bounds included. *)
Definition unit_score `{Float F} (s : F) : Prop :=
  fleb (of_int 0) s = true /\ fleb s (of_int 1) = true.

(** The flags and scores of a scorer on the series [X], once it has
    returned: one of each for every point, every score between 0 and 1
    or not a number. *)
Definition bounded_scores `{Float F} (X : list F) (r : outcome (list bool * list F)) : Prop :=
  exists anomalies scores,
    r = Returns (anomalies, scores) /\
    length anomalies = length X /\
    length scores = length X /\
    Forall (fun s => is_nan s = true \/ unit_score s) scores.

(** A point is flagged exactly when its score exceeds one half. *)
Definition flagged_above_half `{Float F} (r : outcome (list bool * list F)) : Prop :=
  forall anomalies scores,
    r = Returns (anomalies, scores) ->
    Forall2 (fun (a : bool) s => a = fltb (dec 5 1) s) anomalies scores.

(** The local z-score the moving-average scorer gives the value [x] at
    position [i] of the series [X]: its distance to the mean of the
    trailing window in deviations of that window, a deviation of 0 being
    replaced by 1e-6. *)
Definition local_z_score `{Float F} (window_size : Z) (X : list F) (i : nat) (x : F) : F :=
  let window :=
    if Z.of_nat (S i) <? window_size then None
    else Some (firstn (Z.to_nat window_size) (skipn (S i - Z.to_nat window_size) X)) in
  let rolling_std :=
    if feqb (pd.std window) (of_int 0) then dec 1 6 else pd.std window in
  fabs (fdiv (fsub x (pd.mean window)) rolling_std).

(** The row of [_prepare_features] for a point [cur] that follows
    [prev]: the value, the difference and the rate of change. *)
Definition feature_row `{Float F} (prev cur : F) : F * F * F :=
  (cur, fsub cur prev,
   if negb (feqb prev (of_int 0)) then fdiv (fsub cur prev) prev else of_int 0).

(** Neither flag nor score differs from those of an all-normal series. *)
Definition all_normal `{Float F} (n : nat) (r : Result.t F) : Prop :=
  Result.anomalies r = repeat false n /\
  Result.scores r = repeat (of_int 0) n /\
  Result.anomaly_count r = 0.

(** The fields of a point of the scan [(ts, is_anom, score, val)]. *)
Definition instant {F} (p : Z * bool * F * F) : Z := fst (fst (fst p)).
Definition flagged {F} (p : Z * bool * F * F) : bool := snd (fst (fst p)).
Definition score_of {F} (p : Z * bool * F * F) : F := snd (fst p).
Definition value_of {F} (p : Z * bool * F * F) : F := snd p.

(** The test of the grouping window on two instants. *)
Definition near `{Float F} (settings : Settings F) (t1 t2 : Z) : bool :=
  fleb (total_seconds (t2 - t1)) (of_int (anomaly_grouping_window_seconds settings)).

(** A run: a first flagged point and those that follow it in the same
    event. *)
Definition run_points {F} (r : (Z * bool * F * F) * list (Z * bool * F * F))
    : list (Z * bool * F * F) :=
  fst r :: snd r.

(** The runs of a series: the flagged points in their order, cut at
    every point that is not flagged and wherever two flagged points that
    follow each other are not near. [open] is the run being built. *)
Fixpoint runs_from `{Float F} (settings : Settings F)
    (open : option ((Z * bool * F * F) * list (Z * bool * F * F)))
    (points : list (Z * bool * F * F))
    : list ((Z * bool * F * F) * list (Z * bool * F * F)) :=
  match points with
  | [] => match open with Some r => [r] | None => [] end
  | p :: rest =>
      if flagged p then
        match open with
        | None => runs_from settings (Some (p, [])) rest
        | Some (q, qs) =>
            if near settings (instant (List.last qs q)) (instant p)
            then runs_from settings (Some (q, qs ++ [p])) rest
            else (q, qs) :: runs_from settings (Some (p, [])) rest
        end
      else
        match open with
        | Some r => r :: runs_from settings None rest
        | None => runs_from settings None rest
        end
  end.

Definition runs `{Float F} (settings : Settings F) (points : list (Z * bool * F * F))
    : list ((Z * bool * F * F) * list (Z * bool * F * F)) :=
  runs_from settings None points.

(** The event of a run: opened on its first point and extended by each
    of the others. *)
Definition event_of_run `{Float F} (metric_name : string)
    (r : (Z * bool * F * F) * list (Z * bool * F * F)) : Event.t F :=
  fold_left (fun e p => extend_event e (instant p) (score_of p) (value_of p)) (snd r)
    (new_event metric_name (instant (fst r)) (score_of (fst r)) (value_of (fst r))).

(** What every event of the grouper holds about its own points. *)
Definition event_shape {F} (metric_name : string) (e : Event.t F) : Prop :=
  Event.metric e = metric_name /\
  1 <= Event.anomaly_points e /\
  Event.anomaly_points e = len (Event.timestamps e) /\
  length (Event.values e) = length (Event.timestamps e) /\
  head (Event.timestamps e) = Some (Event.start_time e) /\
  last (Event.timestamps e) = Some (Event.end_time e).

(** Two timestamps that follow each other in a list. *)
Definition consecutive (l : list Z) (t1 t2 : Z) : Prop :=
  exists i : nat, l !! i = Some t1 /\ l !! S i = Some t2.

(** The number of points all the events of a list hold. *)
Definition total_anomaly_points {F} (events : list (Event.t F)) : Z :=
  fold_right Z.add 0 (map Event.anomaly_points events).

(** * Properties *)

(** ** Sensitivity resolver and method registry *)

Lemma methods_keys `{Float F} (settings : Settings F) (ext : Externals F) (m : string) :
  methods settings ext !! m = None <-> m ∉ method_names.
Proof.
  unfold methods, method_names; cbn [list_to_map foldr fst snd uncurry].
  rewrite !lookup_insert_None, lookup_empty, !not_elem_of_cons.
  pose proof (not_elem_of_nil m).
  intuition congruence.
Qed.

Lemma methods_isolation_forest `{Float F} (settings : Settings F) (ext : Externals F) :
  methods settings ext !! "isolation-forest" = Some (_detect_isolation_forest ext).
Proof. reflexivity. Qed.

Lemma contamination_unknown `{Float F} (settings : Settings F) (s : string) :
  s ∉ ["low"; "medium"; "high"] ->
  get_contamination_by_sensitivity settings s = default_contamination settings.
Proof.
  rewrite !not_elem_of_cons; intros (Hl & Hm & Hh & _).
  unfold get_contamination_by_sensitivity; cbn [list_to_map foldr fst snd uncurry].
  now rewrite !lookup_insert_ne, lookup_empty by congruence.
Qed.

(** C10. A sensitivity other than "low", "medium" and "high" resolves to
    the configured default contamination; with the values of [Settings]
    this default is 0.01, the value of "medium", so [detect] returns for
    such a sensitivity what it returns for "medium". *)
Theorem unknown_sensitivity_is_medium `{Float F} (sensitivity : string) :
  sensitivity ∉ ["low"; "medium"; "high"] ->
  (forall settings : Settings F,
     get_contamination_by_sensitivity settings sensitivity
     = default_contamination settings) /\
  default_contamination (F:=F) default_settings = dec 1 2 /\
  get_contamination_by_sensitivity (F:=F) default_settings "medium" = dec 1 2 /\
  get_contamination_by_sensitivity (F:=F) default_settings sensitivity
  = get_contamination_by_sensitivity default_settings "medium" /\
  (forall ext clock timestamps values method,
     detect default_settings ext clock timestamps values method sensitivity
     = detect default_settings ext clock timestamps values method "medium").
Proof.
  intros Hs.
  assert (Heq : get_contamination_by_sensitivity (F:=F) default_settings sensitivity
                = get_contamination_by_sensitivity default_settings "medium")
    by (rewrite (contamination_unknown _ _ Hs); reflexivity).
  repeat split; auto using contamination_unknown.
  intros; unfold detect; now rewrite Heq.
Qed.

Lemma unknown_sensitivity_is_medium_witness :
  get_contamination_by_sensitivity (F:=float) default_settings "extreme"
  = get_contamination_by_sensitivity default_settings "medium".
Proof.
  apply (unknown_sensitivity_is_medium (F:=float) "extreme").
  rewrite !not_elem_of_cons; repeat split; try discriminate; apply not_elem_of_nil.
Defined.

(** ** Detection orchestrator *)

(** [detect] on a series that is not empty, in terms of the scorer it
    selects. *)
Lemma detect_nonempty `{Float F} settings ext clock timestamps (values : list F)
    method sensitivity :
  values <> [] ->
  let r := detect settings ext clock timestamps values method sensitivity in
  (Result.anomalies r, Result.scores r)
  = try_except
      (selected_scorer settings ext method values
         (get_contamination_by_sensitivity settings sensitivity))
      (fun _ => (np.zeros_bool (length values), np.zeros (length values))) /\
  Result.method r
  = (if decide (method ∈ method_names) then method else "isolation-forest"%string) /\
  Result.anomaly_count r = np.sum_bool (Result.anomalies r).
Proof.
  intros Hne; unfold detect, selected_scorer.
  destruct values as [|v values]; [congruence|].
  change (len (v :: values) =? 0) with false; cbv iota.
  destruct (methods settings ext !! method) as [f|] eqn:Hm; cbv zeta.
  - rewrite Hm; cbv beta iota.
    destruct (try_except _ _) as [a s];
      cbn [Result.anomalies Result.scores Result.method Result.anomaly_count].
    repeat split.
    destruct (decide (method ∈ method_names)) as [|Hn]; [reflexivity|].
    apply (proj2 (methods_keys settings ext method)) in Hn; congruence.
  - rewrite methods_isolation_forest; cbv beta iota.
    destruct (try_except _ _) as [a s];
      cbn [Result.anomalies Result.scores Result.method Result.anomaly_count].
    repeat split.
    destruct (decide (method ∈ method_names)) as [Hin|]; [|reflexivity].
    apply (proj1 (methods_keys settings ext method)) in Hm; contradiction.
Qed.

(** C6. On a series that is not empty, a method name that is not
    registered makes [detect] run the isolation forest: the result is the
    one of the call with method "isolation-forest", and its [method]
    field says so. *)
Theorem detect_unknown_method `{Float F} settings ext clock timestamps
    (values : list F) method sensitivity :
  values <> [] ->
  method ∉ method_names ->
  let r := detect settings ext clock timestamps values method sensitivity in
  Result.method r = "isolation-forest"%string /\
  (Result.anomalies r, Result.scores r)
  = try_except
      (_detect_isolation_forest ext values
         (get_contamination_by_sensitivity settings sensitivity))
      (fun _ => (np.zeros_bool (length values), np.zeros (length values))) /\
  r = detect settings ext clock timestamps values "isolation-forest" sensitivity.
Proof.
  intros Hne Hm r.
  destruct (detect_nonempty settings ext clock timestamps values method sensitivity Hne)
    as (Hr & Hname & _).
  fold r in Hr, Hname.
  pose proof (proj2 (methods_keys settings ext method) Hm) as Hnone.
  split; [|split].
  - rewrite Hname.
    destruct (decide (method ∈ method_names)); [contradiction|reflexivity].
  - rewrite Hr; unfold selected_scorer; now rewrite Hnone.
  - subst r; unfold detect.
    now rewrite Hnone, methods_isolation_forest.
Qed.

Lemma detect_unknown_method_witness :
  Result.method
    (detect (F:=float) default_settings failing_externals (0%float, 1%float)
       [0; 60000000] [50%float; 200%float] "fourier" "medium")
  = "isolation-forest"%string.
Proof.
  apply (detect_unknown_method (F:=float) default_settings failing_externals
           (0%float, 1%float) [0; 60000000] [50%float; 200%float] "fourier" "medium").
  - discriminate.
  - unfold method_names. rewrite !not_elem_of_cons.
    repeat split; try discriminate. apply not_elem_of_nil.
Defined.

(** *** Shapes of what the scorers return *)

Lemma length_zeros `{Float F} (n : nat) : length (np.zeros (F:=F) n) = n.
Proof. apply repeat_length. Qed.

Lemma length_zeros_bool (n : nat) : length (np.zeros_bool n) = n.
Proof. apply repeat_length. Qed.

Lemma sum_bool_count (flags : list bool) : np.sum_bool flags = count_true flags.
Proof.
  unfold np.sum_bool, count_true.
  enough (Hacc : forall n, fold_left (fun n (x : bool) => if x then n + 1 else n) flags n
                           = n + Z.of_nat (count_occ Bool.bool_dec flags true))
    by (rewrite Hacc; lia).
  induction flags as [|[|] flags IH]; intros n; cbn [fold_left count_occ].
  - lia.
  - destruct (Bool.bool_dec true true); [|congruence]. rewrite IH; lia.
  - destruct (Bool.bool_dec false true); [discriminate|]. apply IH.
Qed.

Lemma count_true_zeros (n : nat) : count_true (np.zeros_bool n) = 0.
Proof.
  unfold count_true, np.zeros_bool.
  induction n as [|n IH]; [reflexivity|].
  cbn [repeat count_occ]. destruct (Bool.bool_dec false true); [discriminate|exact IH].
Qed.

Lemma zscore_keeps_shape `{Float F} (self : ZScoreDetector.t) (X : list F) anomalies scores :
  ZScoreDetector.fit_predict self X = Returns (anomalies, scores) ->
  length anomalies = length X /\ length scores = length X.
Proof.
  unfold ZScoreDetector.fit_predict, ZScoreDetector.predict, ZScoreDetector.fit; cbn.
  destruct (feqb _ _); intros [= <- <-].
  - now rewrite length_zeros, length_zeros_bool.
  - unfold np.abs. now rewrite !length_map.
Qed.

Lemma length_rolling `{Float F} (w : Z) (X : list F) windows :
  pd.rolling w X = Returns windows -> length windows = length X.
Proof.
  unfold pd.rolling. destruct (w <? 0); [discriminate|].
  intros [= <-]. now rewrite length_map, length_seq.
Qed.

Lemma length_set_head `{Float F} (n : Z) (v : F) (s : list F) :
  length (pd.set_head n v s) = length s.
Proof.
  unfold pd.set_head. rewrite length_app, repeat_length, length_skipn. lia.
Qed.

(** What the windowed scorer returns when the series has at least
    [window_size] points: flags and scores computed point by point from
    local z-scores, the first [window_size] of which are set to 0. *)
Lemma moving_average_predict `{Float F} (self : MovingAverageDetector.t) (X : list F) :
  0 <= MovingAverageDetector.window_size self <= len X ->
  exists z_scores,
    length z_scores = length X /\
    MovingAverageDetector.predict self X
    = Returns
        (map (fun z => fltb (MovingAverageDetector.threshold self) z)
             (pd.set_head (MovingAverageDetector.window_size self) (of_int 0) z_scores),
         map (fun z => np.clip
                         (fdiv z (fmul (MovingAverageDetector.threshold self) (of_int 2)))
                         (of_int 0) (of_int 1))
             (pd.set_head (MovingAverageDetector.window_size self) (of_int 0) z_scores)).
Proof.
  intros [Hw0 Hwn]. unfold MovingAverageDetector.predict.
  destruct (Z.ltb_spec (len X) (MovingAverageDetector.window_size self)); [lia|].
  destruct (pd.rolling _ X) as [windows|e] eqn:Hroll.
  2: { unfold pd.rolling in Hroll.
       destruct (Z.ltb_spec (MovingAverageDetector.window_size self) 0); [lia|discriminate]. }
  apply length_rolling in Hroll. cbn [mbind outcome_bind].
  eexists; split; [|reflexivity].
  unfold np.abs, pd.replace.
  rewrite length_map, !length_zip_with, !length_map. lia.
Qed.

Lemma moving_average_keeps_shape `{Float F} (self : MovingAverageDetector.t) (X : list F)
    anomalies scores :
  MovingAverageDetector.fit_predict self X = Returns (anomalies, scores) ->
  length anomalies = length X /\ length scores = length X.
Proof.
  unfold MovingAverageDetector.fit_predict.
  destruct (Z.ltb_spec (len X) (MovingAverageDetector.window_size self)) as [Hlt|Hge].
  - unfold MovingAverageDetector.predict.
    destruct (Z.ltb_spec (len X) (MovingAverageDetector.window_size self)); [|lia].
    intros [= <- <-]. now rewrite length_zeros, length_zeros_bool.
  - destruct (Z.ltb_spec (MovingAverageDetector.window_size self) 0) as [Hneg|Hpos].
    + unfold MovingAverageDetector.predict, pd.rolling.
      destruct (Z.ltb_spec (len X) (MovingAverageDetector.window_size self)); [lia|].
      destruct (Z.ltb_spec (MovingAverageDetector.window_size self) 0); [|lia].
      discriminate.
    + destruct (moving_average_predict self X) as (z & Hz & ->); [lia|].
      intros [= <- <-]. now rewrite !length_map, length_set_head.
Qed.

Lemma length_prepare_features `{Float F} (X : list F) features :
  _prepare_features X = Returns features -> length features = length X.
Proof.
  unfold _prepare_features. destruct X as [|x0 X]; [discriminate|].
  intros [= <-]. cbn [length]. f_equal.
  rewrite !length_zip_with. cbn [length]. lia.
Qed.

Lemma isolation_forest_keeps_shape `{Float F} (ext : Externals F) :
  externals_keep_shape ext -> keeps_shape (_detect_isolation_forest ext).
Proof.
  intros (Hif & _ & _) X c a s.
  unfold _detect_isolation_forest, IsolationForestDetector.fit_predict.
  destruct (_prepare_features X) as [features|e] eqn:Hf; [|discriminate].
  cbn [mbind outcome_bind]. intros Hr%Hif.
  now rewrite <- (length_prepare_features X features Hf).
Qed.

Lemma methods_keep_shape `{Float F} (settings : Settings F) (ext : Externals F)
    (method : string) :
  externals_keep_shape ext -> keeps_shape (selected_scorer settings ext method).
Proof.
  intros Hext.
  pose proof (isolation_forest_keeps_shape ext Hext) as Hiso.
  destruct Hext as (Hif & Hlof & Hdtai).
  unfold selected_scorer.
  destruct (methods settings ext !! method) as [f|] eqn:Hm; [|exact Hiso].
  revert Hm. unfold methods; cbn [list_to_map foldr fst snd uncurry].
  rewrite !lookup_insert. repeat case_decide; try (intros [= <-]).
  - intros X c a s. apply zscore_keeps_shape.
  - intros X c a s. apply moving_average_keeps_shape.
  - exact Hiso.
  - intros X c a s. unfold _detect_lof, LOFDetector.fit_predict.
    destruct (_prepare_features X) as [features|e] eqn:Hf; [|discriminate].
    cbn [mbind outcome_bind]. destruct (_ <? 2).
    + intros [= <- <-]. now rewrite length_zeros, length_zeros_bool.
    + intros Hr%Hlof. now rewrite <- (length_prepare_features X features Hf).
  - intros X c a s. discriminate.
  - intros X c a s. unfold _detect_dtai_auto.
    destruct (negb _); [apply Hiso | apply (Hdtai X c)].
Qed.

(** C5. When the scorer [detect] selects raises on the series, [detect]
    still returns: no point is flagged, every score is 0, and there is
    one flag and one score for each point. *)
Theorem detect_scorer_raises `{Float F} settings ext clock timestamps
    (values : list F) method sensitivity (e : exn) :
  selected_scorer settings ext method values
    (get_contamination_by_sensitivity settings sensitivity) = Raises e ->
  let r := detect settings ext clock timestamps values method sensitivity in
  Result.anomalies r = repeat false (length values) /\
  Result.scores r = repeat (of_int 0) (length values) /\
  Result.anomaly_count r = 0 /\
  length (Result.anomalies r) = length values /\
  length (Result.scores r) = length values.
Proof.
  intros Hraise r.
  assert (Hr : Result.anomalies r = repeat false (length values) /\
               Result.scores r = repeat (of_int 0) (length values) /\
               Result.anomaly_count r = 0).
  { destruct values as [|v values]; [repeat split|].
    destruct (detect_nonempty settings ext clock timestamps (v :: values) method
                sensitivity) as (Hr & _ & Hc); [discriminate|].
    fold r in Hr, Hc. rewrite Hraise in Hr. cbn [try_except] in Hr.
    injection Hr as Ha Hs. rewrite Hc, Ha. repeat split; try assumption.
    rewrite sum_bool_count. apply count_true_zeros. }
  destruct Hr as (Ha & Hs & Hc). rewrite Ha, Hs, !repeat_length. auto.
Qed.

Lemma detect_scorer_raises_witness :
  Result.anomalies
    (detect (F:=float) default_settings failing_externals (0%float, 1%float)
       [0; 60000000] [50%float; 200%float] "prophet" "high")
  = [false; false].
Proof.
  eapply (detect_scorer_raises (F:=float) default_settings failing_externals
            (0%float, 1%float) [0; 60000000] [50%float; 200%float] "prophet" "high").
  reflexivity.
Defined.

(** C4. For timestamps and values of the same length, [detect] returns
    one flag and one score for each value, so that the caller assembles
    one result per point, and [anomaly_count] is the number of flags that
    are set; for the empty series these are no point and no anomaly. The
    scorers of scikit-learn and dtaianomaly are taken to return one
    prediction per sample. *)
Theorem detect_shape `{Float F} settings ext clock timestamps
    (values : list F) method sensitivity :
  externals_keep_shape ext ->
  length timestamps = length values ->
  let r := detect settings ext clock timestamps values method sensitivity in
  length (Result.anomalies r) = length values /\
  length (Result.scores r) = length values /\
  length (points_of timestamps values r) = length values /\
  Result.anomaly_count r = count_true (Result.anomalies r) /\
  (values = [] ->
   Result.anomalies r = [] /\ Result.scores r = [] /\ Result.anomaly_count r = 0).
Proof.
  intros Hext Hlen r.
  assert (Hr : length (Result.anomalies r) = length values /\
               length (Result.scores r) = length values /\
               Result.anomaly_count r = count_true (Result.anomalies r)).
  { destruct values as [|v values]; [repeat split|].
    destruct (detect_nonempty settings ext clock timestamps (v :: values) method
                sensitivity) as (Hr & _ & Hc); [discriminate|].
    fold r in Hr, Hc. rewrite Hc, sum_bool_count.
    destruct (selected_scorer _ _ _ _ _) as [[a s]|e] eqn:Hs; cbn [try_except] in Hr.
    - apply (methods_keep_shape settings ext method Hext) in Hs.
      injection Hr as -> ->. tauto.
    - injection Hr as -> ->. now rewrite length_zeros, length_zeros_bool. }
  destruct Hr as (Ha & Hs & Hc).
  split; [exact Ha|]. split; [exact Hs|]. split; [|split; [exact Hc|]].
  - unfold points_of. rewrite !length_zip_with. lia.
  - intros ->. subst r. repeat split.
Qed.

Lemma failing_externals_keep_shape `{Float F} : externals_keep_shape (F:=F) failing_externals.
Proof. repeat split; intros; discriminate. Qed.

Lemma detect_shape_witness :
  length
    (Result.anomalies
       (detect (F:=float) default_settings failing_externals (0%float, 1%float)
          [0; 60000000; 120000000] [50%float; 200%float; 50%float] "z-score" "medium"))
  = 3%nat.
Proof.
  apply (detect_shape (F:=float) default_settings failing_externals
           (0%float, 1%float) [0; 60000000; 120000000] [50%float; 200%float; 50%float]
           "z-score" "medium").
  - apply failing_externals_keep_shape.
  - reflexivity.
Defined.

(** ** Exact arithmetic *)

Lemma Qred_eq (a b : Q) : (a == b)%Q -> Qred a = Qred b.
Proof. apply Qred_complete. Qed.

Lemma is_num_Num (a q : Q) : (a == q)%Q -> is_num (Exact.Num (Qred a)) q.
Proof. intros Ha; cbn. now rewrite Qred_correct. Qed.

Lemma is_num_inv (x : Exact.t) (q : Q) :
  is_num x q -> exists a, x = Exact.Num a /\ (a == q)%Q.
Proof. destruct x as [a|]; [|contradiction]. intros Ha. now exists a. Qed.

Lemma is_num_of_int (n : Z) : is_num (of_int n) (inject_Z n).
Proof. cbn. reflexivity. Qed.

Lemma is_num_add x y a b : is_num x a -> is_num y b -> is_num (fadd x y) (a + b).
Proof.
  intros (x' & -> & Hx)%is_num_inv (y' & -> & Hy)%is_num_inv.
  apply is_num_Num. now rewrite Hx, Hy.
Qed.

Lemma is_num_sub x y a b : is_num x a -> is_num y b -> is_num (fsub x y) (a - b).
Proof.
  intros (x' & -> & Hx)%is_num_inv (y' & -> & Hy)%is_num_inv.
  apply is_num_Num. now rewrite Hx, Hy.
Qed.

Lemma is_num_mul x y a b : is_num x a -> is_num y b -> is_num (fmul x y) (a * b).
Proof.
  intros (x' & -> & Hx)%is_num_inv (y' & -> & Hy)%is_num_inv.
  apply is_num_Num. now rewrite Hx, Hy.
Qed.

Lemma is_num_div x y a b :
  is_num x a -> is_num y b -> ~ (b == 0)%Q -> is_num (fdiv x y) (a / b).
Proof.
  intros (x' & -> & Hx)%is_num_inv (y' & -> & Hy)%is_num_inv Hb.
  cbn. destruct (Qeq_bool y' 0) eqn:E.
  - apply Qeq_bool_iff in E. rewrite Hy in E. contradiction.
  - cbn. now rewrite Qred_correct, Hx, Hy.
Qed.

Lemma is_num_truediv (n d : Z) :
  d <> 0 -> is_num (truediv n d) (inject_Z n / inject_Z d).
Proof.
  intros Hd.
  change (truediv n d) with (fdiv (of_int (F:=Exact.t) n) (of_int d)).
  apply is_num_div; try apply is_num_of_int.
  intros E. apply Hd. unfold Qeq in E; cbn in E. lia.
Qed.

Lemma is_num_dec (m : Z) (k : nat) :
  is_num (dec m k) (inject_Z m / inject_Z (10 ^ Z.of_nat k)).
Proof. apply is_num_truediv. apply Z.pow_nonzero; lia. Qed.

Lemma exact_ltb x y a b : is_num x a -> is_num y b -> (fltb x y = true <-> (a < b)%Q).
Proof.
  intros (x' & -> & Hx)%is_num_inv (y' & -> & Hy)%is_num_inv. cbn.
  rewrite negb_true_iff, <- not_true_iff_false, Qle_bool_iff, Hx, Hy.
  split; [apply Qnot_le_lt | apply Qlt_not_le].
Qed.

Lemma exact_leb x y a b : is_num x a -> is_num y b -> (fleb x y = true <-> (a <= b)%Q).
Proof.
  intros (x' & -> & Hx)%is_num_inv (y' & -> & Hy)%is_num_inv. cbn.
  now rewrite Qle_bool_iff, Hx, Hy.
Qed.

Lemma exact_eqb x y a b : is_num x a -> is_num y b -> (feqb x y = true <-> (a == b)%Q).
Proof.
  intros (x' & -> & Hx)%is_num_inv (y' & -> & Hy)%is_num_inv. cbn.
  now rewrite Qeq_bool_iff, Hx, Hy.
Qed.

Lemma is_num_py_min x y a b : is_num x a -> is_num y b -> is_num (py_min x y) (Qmin a b).
Proof.
  intros Hx Hy. unfold py_min.
  destruct (fltb y x) eqn:E.
  - apply (exact_ltb y x b a Hy Hx) in E.
    destruct y; [|contradiction]. cbn in *. rewrite Hy.
    symmetry. apply Q.min_r. now apply Qlt_le_weak.
  - assert (Hle : (a <= b)%Q).
    { apply Qnot_lt_le. intros Hlt. apply (exact_ltb y x b a Hy Hx) in Hlt. congruence. }
    destruct x; [|contradiction]. cbn in *. rewrite Hx.
    symmetry. now apply Q.min_l.
Qed.

Lemma is_num_py_max x y a b : is_num x a -> is_num y b -> is_num (py_max x y) (Qmax a b).
Proof.
  intros Hx Hy. unfold py_max.
  destruct (fltb x y) eqn:E.
  - apply (exact_ltb x y a b Hx Hy) in E.
    destruct y; [|contradiction]. cbn in *. rewrite Hy.
    symmetry. apply Q.max_r. now apply Qlt_le_weak.
  - assert (Hle : (b <= a)%Q).
    { apply Qnot_lt_le. intros Hlt. apply (exact_ltb x y a b Hx Hy) in Hlt. congruence. }
    destruct x; [|contradiction]. cbn in *. rewrite Hx.
    symmetry. now apply Q.max_l.
Qed.

Lemma round_half_even_wd (a b : Q) : (a == b)%Q -> round_half_even a = round_half_even b.
Proof.
  intros E. unfold round_half_even.
  rewrite (Qfloor_comp a b E).
  assert (Hc : (a - inject_Z (Qfloor b) ?= 1 # 2)%Q = (b - inject_Z (Qfloor b) ?= 1 # 2)%Q)
    by (apply Qcompare_comp; [rewrite E|]; reflexivity).
  now rewrite Hc.
Qed.

Lemma round_half_even_range (q : Q) (n : Z) :
  (0 <= q)%Q -> (q <= inject_Z n)%Q -> 0 <= round_half_even q <= n.
Proof.
  intros H0 Hn. unfold round_half_even.
  assert (Hf0 : 0 <= Qfloor q) by (change 0 with (Qfloor 0); now apply Qfloor_resp_le).
  assert (Hfn : Qfloor q <= n)
    by (rewrite <- (Qfloor_Z n); now apply Qfloor_resp_le).
  destruct (Z.eq_dec (Qfloor q) n) as [E|E].
  - assert (Hq : (q - inject_Z (Qfloor q) == 0)%Q).
    { pose proof (Qfloor_le q) as Hle. rewrite E in *. lra. }
    assert (Hc : (q - inject_Z (Qfloor q) ?= 1 # 2)%Q = Lt)
      by (rewrite <- Qlt_alt, Hq; reflexivity).
    rewrite Hc. lia.
  - destruct (Qcompare _ _); [destruct (Z.even _)| |]; lia.
Qed.

Lemma is_num_round (n : nat) x a :
  is_num x a ->
  fround n x
  = Exact.Num (Qred (inject_Z (round_half_even (a * inject_Z (10 ^ Z.of_nat n)))
                     / inject_Z (10 ^ Z.of_nat n))).
Proof.
  intros (x' & -> & Hx)%is_num_inv. cbn. f_equal. apply Qred_eq.
  now rewrite (round_half_even_wd _ (a * inject_Z (10 ^ Z.of_nat n))) by now rewrite Hx.
Qed.

(** ** Priority ranker *)

Lemma priority_spec_range (max_score duration : Q) (points : Z) :
  (0 <= max_score <= 1)%Q -> 0 <= points -> (0 <= duration)%Q ->
  (0 <= priority_spec max_score points duration <= 1)%Q.
Proof.
  intros [Hs0 Hs1] Hp Hd. unfold priority_spec, round_3_places.
  set (v := ((5 # 10) * max_score + (3 # 10) * Qmin (inject_Z points / 10) 1
             + (2 # 10) * Qmin (duration / 600) 1)%Q).
  assert (Hp' : (0 <= inject_Z points)%Q) by (rewrite Zle_Qle in Hp; exact Hp).
  assert (Hv : (0 <= v <= 1)%Q).
  { subst v.
    assert (Ha : (0 <= inject_Z points / 10)%Q) by (apply Qle_shift_div_l; lra).
    assert (Hb : (0 <= duration / 600)%Q) by (apply Qle_shift_div_l; lra).
    set (a := (inject_Z points / 10)%Q) in *. set (b := (duration / 600)%Q) in *.
    destruct (Q.min_spec a 1) as [[Ha1 Ea]|[Ha1 Ea]];
      destruct (Q.min_spec b 1) as [[Hb1 Eb]|[Hb1 Eb]]; rewrite Ea, Eb; lra. }
  destruct (round_half_even_range (v * 1000) 1000) as [Hr0 Hr1];
    [lra | change (inject_Z 1000) with 1000%Q; lra |].
  rewrite Zle_Qle in Hr0, Hr1.
  change (inject_Z 0) with 0%Q in Hr0. change (inject_Z 1000) with 1000%Q in Hr1.
  set (r := inject_Z (round_half_even (v * 1000))) in *.
  split.
  - apply Qle_shift_div_l; lra.
  - apply Qle_shift_div_r; lra.
Qed.

Lemma calculate_priority_exact (x y : Exact.t) (max_score duration : Q) (points : Z) :
  is_num x max_score -> is_num y duration ->
  _calculate_priority x points y
  = Exact.Num (Qred (priority_spec max_score points duration)).
Proof.
  intros Hx Hy. unfold _calculate_priority.
  erewrite is_num_round.
  2: { repeat first [ apply is_num_add | apply is_num_mul | apply is_num_py_min
                    | apply is_num_dec | apply is_num_of_int | eassumption ].
       - apply is_num_truediv. discriminate.
       - apply is_num_div.
         + eassumption.
         + apply is_num_of_int.
         + intros E. unfold Qeq in E. cbn in E. lia. }
  reflexivity.
Qed.



(** ** Windowed scorer *)

Lemma lookup_repeat {A} (x : A) (n i : nat) : (i < n)%nat -> repeat x n !! i = Some x.
Proof.
  revert i; induction n as [|n IH]; intros [|i] Hi; try lia; cbn; [reflexivity|].
  apply IH; lia.
Qed.

Lemma lookup_set_head `{Float F} (n : Z) (v : F) (s : list F) (i : nat) :
  Z.of_nat i < n -> (i < length s)%nat -> pd.set_head n v s !! i = Some v.
Proof.
  intros Hn Hi. unfold pd.set_head.
  rewrite lookup_app_l by (rewrite repeat_length; lia).
  apply lookup_repeat; lia.
Qed.

(** The cold start holds for a threshold under which a local z-score of
    0 is not flagged and scores 0. *)
Lemma moving_average_cold_start `{Float F} (self : MovingAverageDetector.t) (X : list F) :
  0 <= MovingAverageDetector.window_size self ->
  fltb (MovingAverageDetector.threshold self) (of_int 0) = false ->
  np.clip (fdiv (of_int 0) (fmul (MovingAverageDetector.threshold self) (of_int 2)))
    (of_int 0) (of_int 1) = of_int 0 ->
  cold_start (MovingAverageDetector.window_size self) X
    (MovingAverageDetector.predict self X).
Proof.
  intros Hw Hflag Hscore. unfold cold_start.
  destruct (Z.ltb_spec (len X) (MovingAverageDetector.window_size self)) as [Hlt|Hge].
  - exists (np.zeros_bool (length X)), (np.zeros (length X)).
    unfold MovingAverageDetector.predict.
    destruct (Z.ltb_spec (len X) (MovingAverageDetector.window_size self)); [|lia].
    rewrite length_zeros, length_zeros_bool.
    repeat split; auto; apply lookup_repeat; assumption.
  - destruct (moving_average_predict self X) as (z & Hz & ->); [lia|].
    do 2 eexists. split; [reflexivity|].
    rewrite !length_map, length_set_head.
    repeat split; auto; try (unfold len in *; lia).
    + rewrite list_lookup_fmap, lookup_set_head by (assumption || lia).
      cbn. now rewrite Hflag.
    + rewrite list_lookup_fmap, lookup_set_head by (assumption || lia).
      cbn. now rewrite Hscore.
Qed.

Lemma exact_zero_is_normal (threshold : Exact.t) :
  fltb (of_int 0) threshold = true ->
  fltb threshold (of_int 0) = false /\
  np.clip (fdiv (of_int 0) (fmul threshold (of_int 2))) (of_int 0) (of_int 1) = of_int 0.
Proof.
  destruct threshold as [t|]; [|discriminate].
  intros Ht. apply (exact_ltb (of_int 0) (Exact.Num t) 0 t) in Ht; try solve [cbn; reflexivity].
  split.
  - apply not_true_iff_false. intros Hlt.
    apply (exact_ltb (Exact.Num t) (of_int 0) t 0) in Hlt; try solve [cbn; reflexivity]. lra.
  - cbn. destruct (Qeq_bool (Qred (t * inject_Z 2)) 0) eqn:E.
    + apply Qeq_bool_iff in E. rewrite Qred_correct in E.
      change (inject_Z 2) with 2%Q in E. lra.
    + rewrite (Qred_eq (inject_Z 0 / Qred (t * inject_Z 2)) 0); [reflexivity|].
      change (inject_Z 0) with 0%Q. unfold Qdiv. ring.
Qed.

(** C8. The windowed scorer with a window that is not negative returns
    a flag and a score for each point; the points before [window_size]
    are never flagged and score 0, whatever their values, and a series
    shorter than [window_size] is all normal. This holds in exact
    arithmetic for every positive threshold, and in binary64 for the
    threshold 3.0, the one the engine configures. *)
Theorem moving_average_cold_start_policy :
  (forall (window_size : Z) (threshold : Exact.t) (X : list Exact.t),
     0 <= window_size ->
     fltb (of_int 0) threshold = true ->
     cold_start window_size X
       (MovingAverageDetector.predict
          {| MovingAverageDetector.window_size := window_size;
             MovingAverageDetector.threshold := threshold |} X)) /\
  (forall (window_size : Z) (X : list float),
     0 <= window_size ->
     cold_start window_size X
       (MovingAverageDetector.predict
          {| MovingAverageDetector.window_size := window_size;
             MovingAverageDetector.threshold := 3%float |} X)) /\
  (forall (X : list float) (contamination : float),
     cold_start 10 X (_detect_moving_average default_settings X contamination)).
Proof.
  split; [|split].
  - intros w t X Hw Ht. destruct (exact_zero_is_normal t Ht).
    now apply moving_average_cold_start.
  - intros w X Hw. now apply moving_average_cold_start.
  - intros X c.
    apply (moving_average_cold_start
             {| MovingAverageDetector.window_size := 10;
                MovingAverageDetector.threshold := 3%float |}); [cbn; lia | reflexivity..].
Qed.

Lemma moving_average_cold_start_policy_witness :
  cold_start 3 [Exact.Num 1000; Exact.Num 1; Exact.Num (-7); Exact.Num 2]
    (MovingAverageDetector.predict
       {| MovingAverageDetector.window_size := 3;
          MovingAverageDetector.threshold := Exact.Num 3 |}
       [Exact.Num 1000; Exact.Num 1; Exact.Num (-7); Exact.Num 2]).
Proof.
  apply (proj1 moving_average_cold_start_policy); [lia | reflexivity].
Defined.

(** ** The order of the numbers *)

#[export] Instance exact_order : FloatOrder Exact.t.
Proof.
  split.
  - intros [a|]; [|reflexivity]. cbn.
    apply negb_false_iff, Qle_bool_iff, Qle_refl.
  - intros [a|] [b|]; try discriminate. cbn.
    rewrite negb_true_iff, <- not_true_iff_false, !Qle_bool_iff. lra.
  - intros [a|] [b|]; try discriminate. cbn. intros _ _.
    now rewrite negb_false_iff.
  - intros [a|] [b|] [c|]; try discriminate. cbn.
    rewrite !Qle_bool_iff. apply Qle_trans.
  - intros [a|] [b|] [c|]; try discriminate. cbn.
    rewrite negb_true_iff, <- not_true_iff_false, Qle_bool_iff, !Qeq_bool_iff. lra.
Qed.

Lemma SFcompare_lex (x y : spec_float) :
  SFcompare x y
  = match sf_key x, sf_key y with
    | Some a, Some b => Some (lex a b)
    | _, _ => None
    end.
Proof.
  destruct x as [sx|sx| |sx mx ex], y as [sy|sy| |sy my ey];
    try destruct sx; try destruct sy; try reflexivity.
  cbn. rewrite Z.compare_opp, (Z.compare_antisym ex ey).
  destruct (ex ?= ey); reflexivity.
Qed.

Ltac lex_cases :=
  unfold lex;
  repeat match goal with
         | x : (Z * Z * Z)%type |- _ => destruct x as [[? ?] ?]
         end;
  repeat match goal with
         | |- context [?x ?= ?y] => destruct (Z.compare_spec x y)
         | H : context [?x ?= ?y] |- _ => destruct (Z.compare_spec x y)
         end;
  try congruence; try lia.

Lemma lex_refl (a : Z * Z * Z) : lex a a = Eq.
Proof. lex_cases. Qed.

Lemma lex_total (a b : Z * Z * Z) : lex a b <> Lt -> lex b a = Lt \/ lex b a = Eq.
Proof. lex_cases; auto. Qed.

Lemma lex_trans (a b c : Z * Z * Z) :
  (lex a b = Lt \/ lex a b = Eq) -> (lex b c = Lt \/ lex b c = Eq) ->
  lex a c = Lt \/ lex a c = Eq.
Proof. lex_cases; intuition congruence. Qed.

Lemma lex_lt_eq (a b p : Z * Z * Z) :
  lex a b = Lt -> lex a p = Eq -> lex b p = Eq -> False.
Proof. lex_cases. Qed.

Lemma binary64_is_nan (x : float) :
  PrimFloat.is_nan x = false -> exists a, sf_key (Prim2SF x) = Some a.
Proof.
  unfold PrimFloat.is_nan. rewrite FloatAxioms.eqb_spec. unfold SFeqb.
  rewrite SFcompare_lex. destruct (sf_key (Prim2SF x)) as [a|]; [eauto|discriminate].
Qed.

#[export] Instance binary64_order : FloatOrder float.
Proof.
  split; cbn [fltb fleb feqb is_nan binary64].
  - intros x. rewrite ltb_spec. unfold SFltb. rewrite SFcompare_lex.
    destruct (sf_key (Prim2SF x)) as [a|]; [|reflexivity]. now rewrite lex_refl.
  - intros x y. rewrite ltb_spec, leb_spec. unfold SFltb, SFleb. rewrite SFcompare_lex.
    destruct (sf_key (Prim2SF x)), (sf_key (Prim2SF y)); try discriminate.
    now destruct (lex _ _).
  - intros x y [a Ha]%binary64_is_nan [b Hb]%binary64_is_nan.
    rewrite ltb_spec, leb_spec. unfold SFltb, SFleb. rewrite !SFcompare_lex, Ha, Hb.
    intros Hlt. destruct (lex_total a b) as [-> | ->]; [|reflexivity..].
    now destruct (lex a b).
  - intros x y z. rewrite !leb_spec. unfold SFleb. rewrite !SFcompare_lex.
    destruct (sf_key (Prim2SF x)) as [a|], (sf_key (Prim2SF y)) as [b|],
      (sf_key (Prim2SF z)) as [c|]; try discriminate.
    intros Hab Hbc. destruct (lex_trans a b c) as [-> | ->]; try reflexivity.
    + destruct (lex a b); auto; discriminate.
    + destruct (lex b c); auto; discriminate.
  - intros x y p. rewrite ltb_spec, !FloatAxioms.eqb_spec. unfold SFltb, SFeqb.
    rewrite !SFcompare_lex.
    destruct (sf_key (Prim2SF x)) as [a|], (sf_key (Prim2SF y)) as [b|],
      (sf_key (Prim2SF p)) as [c|]; try discriminate.
    intros Hab Hac Hbc. apply (lex_lt_eq a b c).
    + destruct (lex a b); auto; discriminate.
    + destruct (lex a c); auto; discriminate.
    + destruct (lex b c); auto; discriminate.
Qed.

(** ** Sorting by priority *)

Section SortReverse.
Context `{Float F} {A : Type} (key : A -> F).

Lemma insert_reverse_perm (x : A) (l : list A) :
  Permutation (insert_reverse key x l) (x :: l).
Proof.
  induction l as [|y l IH]; cbn [insert_reverse]; [reflexivity|].
  destruct (fltb _ _); [|reflexivity].
  rewrite IH. apply perm_swap.
Qed.

Lemma sort_reverse_perm (l : list A) : Permutation (sort_reverse key l) l.
Proof.
  induction l as [|x l IH]; cbn; [reflexivity|].
  fold (sort_reverse key l). now rewrite insert_reverse_perm, IH.
Qed.

Lemma length_sort_reverse (l : list A) : length (sort_reverse key l) = length l.
Proof. apply Permutation_length, sort_reverse_perm. Qed.

End SortReverse.

Section SortReverseOrdered.
Context `{FloatOrder F} {A : Type} (key : A -> F).

Let ge (a b : A) : Prop := fleb (key b) (key a) = true.
Let same (p : F) (x : A) : bool := feqb (key x) p.

Lemma insert_reverse_sorted (x : A) (l : list A) :
  is_nan (key x) = false ->
  Forall (fun y => is_nan (key y) = false) l ->
  StronglySorted ge l ->
  StronglySorted ge (insert_reverse key x l).
Proof.
  intros Hx Hl Hs.
  induction Hs as [|y l Hs IH Hy]; cbn [insert_reverse].
  - repeat constructor.
  - apply Forall_cons_1 in Hl as [Hny Hl].
    destruct (fltb (key x) (key y)) eqn:E.
    + constructor; [now apply IH|].
      rewrite (insert_reverse_perm key x l). constructor; [|exact Hy].
      now apply ltb_leb.
    + assert (Hxy : ge x y) by now apply leb_total.
      constructor; [now constructor|].
      constructor; [exact Hxy|].
      eapply Forall_impl; [exact Hy|].
      intros z Hz. unfold ge in *. eapply leb_trans; eassumption.
Qed.

Lemma sort_reverse_sorted (l : list A) :
  Forall (fun y => is_nan (key y) = false) l ->
  StronglySorted ge (sort_reverse key l).
Proof.
  induction l as [|x l IH]; intros Hl; cbn; [constructor|].
  apply Forall_cons_1 in Hl as [Hx Hl]. fold (sort_reverse key l).
  apply insert_reverse_sorted; [exact Hx| |now apply IH].
  now rewrite (sort_reverse_perm key l).
Qed.

Lemma insert_reverse_stable (p : F) (x : A) (l : list A) :
  List.filter (same p) (insert_reverse key x l) = List.filter (same p) (x :: l).
Proof.
  induction l as [|y l IH]; cbn [insert_reverse]; [reflexivity|].
  destruct (fltb (key x) (key y)) eqn:E; [|reflexivity].
  cbn [List.filter] in *. rewrite IH. unfold same.
  destruct (feqb (key x) p) eqn:Ex, (feqb (key y) p) eqn:Ey; try reflexivity.
  destruct (ltb_eqb _ _ _ E Ex Ey).
Qed.

Lemma sort_reverse_stable (p : F) (l : list A) :
  List.filter (same p) (sort_reverse key l) = List.filter (same p) l.
Proof.
  induction l as [|x l IH]; cbn [sort_reverse fold_right]; [reflexivity|].
  fold (sort_reverse key l). rewrite insert_reverse_stable.
  cbn [List.filter]. now rewrite IH.
Qed.

End SortReverseOrdered.

(** ** Event grouper: the scan *)

Section Scan.
Context `{Float F} (settings : Settings F) (metric_name : string).

Let state : Type := (list (Event.t F) * option (Event.t F))%type.
Let point : Type := (Z * bool * F * F)%type.

Lemma scan_fold (points : list point) :
  scan settings metric_name points
  = close (fold_left (step settings metric_name) points ([], None)).
Proof. unfold scan. now destruct (fold_left _ _ _) as [events [e|]]. Qed.

(** The state after an anomalous point: an event is open, and it ends
    at this point. *)
Lemma step_anomalous (st : state) (ts : Z) (score val : F) :
  exists events e l,
    step settings metric_name st (ts, true, score, val) = (events, Some e) /\
    Event.end_time e = ts /\
    Event.timestamps e = l ++ [ts].
Proof.
  destruct st as [events [e|]]; cbn.
  - destruct (fleb _ _).
    + exists events, (extend_event e ts score val), (Event.timestamps e).
      unfold extend_event. destruct (fltb _ _); cbn; auto.
    + exists (events ++ [e]), (new_event metric_name ts score val), []. auto.
  - exists events, (new_event metric_name ts score val), []. auto.
Qed.

(** Closed events stay where they are. *)
Lemma fold_step_closed (points : list point) (events : list (Event.t F))
    (current_event : option (Event.t F)) :
  exists more,
    close (fold_left (step settings metric_name) points (events, current_event))
    = events ++ more.
Proof.
  revert events current_event.
  induction points as [|[[[ts [|]] score] val] points IH]; intros events cur.
  - destruct cur as [e|]; cbn; [now exists [e] | exists []; now rewrite app_nil_r].
  - cbn [fold_left]. destruct cur as [e|]; cbn [step negb].
    + destruct (fleb _ _).
      * apply IH.
      * destruct (IH (events ++ [e]) (Some (new_event metric_name ts score val)))
          as [more ->].
        exists (e :: more). now rewrite <- app_assoc.
    + apply IH.
  - cbn [fold_left]. destruct cur as [e|]; cbn [step negb].
    + destruct (IH (events ++ [e]) None) as [more ->].
      exists (e :: more). now rewrite <- app_assoc.
    + apply IH.
Qed.

(** The open event is met again among the final events, with the same
    start and with its timestamps possibly followed by later ones. *)
Lemma fold_step_open (points : list point) (events : list (Event.t F)) (e : Event.t F) :
  exists e' later more,
    close (fold_left (step settings metric_name) points (events, Some e))
    = events ++ e' :: more /\
    Event.start_time e' = Event.start_time e /\
    Event.timestamps e' = Event.timestamps e ++ later.
Proof.
  revert events e.
  induction points as [|[[[ts [|]] score] val] points IH]; intros events e.
  - exists e, [], []. cbn. now rewrite app_nil_r.
  - cbn [fold_left step negb]. destruct (fleb _ _).
    + destruct (IH events (extend_event e ts score val)) as (e' & later & more & -> & Hs & Ht).
      exists e', (ts :: later), more. split; [reflexivity|].
      rewrite Hs, Ht. unfold extend_event. destruct (fltb _ _); cbn;
        now rewrite <- app_assoc.
    + destruct (fold_step_closed points (events ++ [e])
                  (Some (new_event metric_name ts score val))) as [more ->].
      exists e, [], more. now rewrite <- app_assoc, app_nil_r.
  - cbn [fold_left step negb].
    destruct (fold_step_closed points (events ++ [e]) None) as [more ->].
    exists e, [], more. now rewrite <- app_assoc, app_nil_r.
Qed.

(** A property of events that opening and continuing an event keep
    holds of all the events of the scan. *)
Lemma fold_step_Forall (P : Event.t F -> Prop) (Q : point -> Prop)
    (points : list point) (events : list (Event.t F))
    (current_event : option (Event.t F)) :
  (forall ts score val, Q (ts, true, score, val) -> P (new_event metric_name ts score val)) ->
  (forall e ts score val,
     P e -> Q (ts, true, score, val) -> P (extend_event e ts score val)) ->
  Forall Q points ->
  Forall P events ->
  (forall e, current_event = Some e -> P e) ->
  Forall P (close (fold_left (step settings metric_name) points (events, current_event))).
Proof.
  intros Hnew Hext. revert events current_event.
  induction points as [|[[[ts [|]] score] val] points IH]; intros events cur Hq Hevs Hcur.
  - destruct cur as [e|]; cbn; [|assumption].
    apply Forall_app; split; [assumption|]. constructor; [now apply Hcur|constructor].
  - apply Forall_cons_1 in Hq as [Hq1 Hq].
    cbn [fold_left]. destruct cur as [e|]; cbn [step negb].
    + destruct (fleb _ _); apply IH; try assumption.
      * intros e' [= <-]. apply Hext; auto.
      * apply Forall_app; split; [assumption|]. constructor; [now apply Hcur|constructor].
      * intros e' [= <-]. now apply Hnew.
    + apply IH; try assumption. intros e' [= <-]. now apply Hnew.
  - apply Forall_cons_1 in Hq as [_ Hq].
    cbn [fold_left]. destruct cur as [e|]; cbn [step negb]; apply IH; try assumption.
    + apply Forall_app; split; [assumption|]. constructor; [now apply Hcur|constructor].
    + discriminate.
Qed.

(** Without an anomalous point the scan opens no event. *)
Lemma fold_step_normal (points : list point) (events : list (Event.t F)) :
  Forall (fun p : point => snd (fst (fst p)) = false) points ->
  fold_left (step settings metric_name) points (events, None) = (events, None).
Proof.
  induction points as [|[[[ts a] score] val] points IH]; intros Hp; [reflexivity|].
  apply Forall_cons_1 in Hp as [Ha Hp]. cbn in Ha. subst a. cbn. now apply IH.
Qed.

End Scan.

Lemma points_zip_Forall {F} (Pa : bool -> Prop) (Ps : F -> Prop)
    (timestamps : list Z) (anomalies : list bool) (scores values : list F) :
  Forall Pa anomalies -> Forall Ps scores ->
  Forall (fun p : Z * bool * F * F => Pa (snd (fst (fst p))) /\ Ps (snd (fst p)))
    (points_zip timestamps anomalies scores values).
Proof.
  unfold points_zip. revert anomalies scores values.
  induction timestamps as [|t timestamps IH];
    intros [|a anomalies] [|s scores] [|v values] Ha Hs; cbn; try constructor.
  - split; [now inversion Ha | now inversion Hs].
  - apply IH; [now inversion Ha | now inversion Hs].
Qed.

Lemma any_false (l : list bool) : any l = false -> Forall (fun a => a = false) l.
Proof.
  unfold any. induction l as [|[|] l IH]; cbn; intros Hl; try discriminate; constructor; auto.
Qed.

Lemma scan_normal `{Float F} (settings : Settings F) (metric_name : string)
    timestamps anomalies (scores values : list F) :
  any anomalies = false ->
  scan settings metric_name (points_zip timestamps anomalies scores values) = [].
Proof.
  intros Hany. rewrite scan_fold, fold_step_normal; [reflexivity|].
  eapply Forall_impl;
    [apply (points_zip_Forall (fun a => a = false) (fun _ => True)
              timestamps anomalies scores values)|].
  - now apply any_false.
  - now apply Forall_forall.
  - now intros p [Hp _].
Qed.

(** [group_anomalies] sorts the events of the scan. *)
Lemma group_anomalies_sort `{Float F} (settings : Settings F) (metric_name : string)
    timestamps anomalies (scores values : list F) :
  group_anomalies settings timestamps anomalies scores values metric_name
  = sort_reverse RankedEvent.priority
      (chronological_events settings timestamps anomalies scores values metric_name).
Proof.
  unfold group_anomalies, chronological_events. fold (points_zip timestamps anomalies scores values).
  destruct (any anomalies) eqn:Hany; [reflexivity|].
  now rewrite scan_normal.
Qed.

(** ** Event grouper: ranking *)

Lemma py_max_numeric (a b : Exact.t) :
  is_nan a = false -> is_nan b = false -> is_nan (py_max a b) = false.
Proof. intros Ha Hb. unfold py_max. now destruct (fltb a b). Qed.

Lemma numeric_is_num (x : Exact.t) : is_nan x = false -> exists q, is_num x q.
Proof. destruct x as [q|]; [|discriminate]. intros _. exists q. cbn. reflexivity. Qed.

(** With scores that are numbers, every event has a number as priority. *)
Lemma chronological_priorities settings timestamps anomalies
    (scores values : list Exact.t) metric_name :
  Forall (fun s => is_nan s = false) scores ->
  Forall (fun e => is_nan (RankedEvent.priority e) = false)
    (chronological_events settings timestamps anomalies scores values metric_name).
Proof.
  intros Hs. unfold chronological_events. apply Forall_map.
  eapply Forall_impl.
  - rewrite scan_fold.
    apply (fold_step_Forall settings metric_name
             (fun e => is_nan (Event.max_score e) = false)
             (fun p => is_nan (snd (fst p)) = false)).
    + intros ts s v Hp. exact Hp.
    + intros e ts s v He Hp. unfold extend_event.
      destruct (fltb _ _); cbn; now apply py_max_numeric.
    + eapply Forall_impl;
        [apply (points_zip_Forall (fun _ => True) (fun s => is_nan s = false)
                  timestamps anomalies scores values)|].
      * now apply Forall_forall.
      * exact Hs.
      * now intros p [_ Hp].
    + constructor.
    + discriminate.
  - intros e He. cbn beta in He. apply numeric_is_num in He as [q Hq].
    unfold rank. cbn [RankedEvent.priority].
    erewrite calculate_priority_exact; [reflexivity|exact Hq|].
    apply is_num_truediv. discriminate.
Qed.

(** In either arithmetic: the events [group_anomalies] returns are those
    of the scan, the events of any one priority in the order in which
    the scan closed them, and largest priority first when no priority is
    a not-a-number. *)
Lemma group_anomalies_ranked `{FloatOrder F} (settings : Settings F)
    timestamps anomalies (scores values : list F) metric_name :
  let chronological :=
    chronological_events settings timestamps anomalies scores values metric_name in
  let events :=
    group_anomalies settings timestamps anomalies scores values metric_name in
  Permutation events chronological /\
  (forall p, with_priority p events = with_priority p chronological) /\
  (Forall (fun e => is_nan (RankedEvent.priority e) = false) chronological ->
   StronglySorted by_priority events).
Proof.
  intros chronological events.
  subst events. rewrite group_anomalies_sort. fold chronological.
  split; [|split].
  - apply sort_reverse_perm.
  - intros p. apply sort_reverse_stable.
  - apply sort_reverse_sorted.
Qed.

(** C7. The events [group_anomalies] returns are those of the scan, in
    non-increasing order of priority, and the events of any one priority
    keep the order in which the scan closed them (the sort is stable):
    in exact arithmetic for scores that are numbers, and in binary64
    when no priority is a not-a-number. *)
Theorem group_anomalies_sorted_stable :
  (forall (settings : Settings Exact.t) timestamps anomalies
          (scores values : list Exact.t) metric_name,
     Forall (fun s => is_nan s = false) scores ->
     let chronological :=
       chronological_events settings timestamps anomalies scores values metric_name in
     let events :=
       group_anomalies settings timestamps anomalies scores values metric_name in
     StronglySorted by_priority events /\
     Permutation events chronological /\
     forall p, with_priority p events = with_priority p chronological) /\
  (forall (settings : Settings float) timestamps anomalies
          (scores values : list float) metric_name,
     let chronological :=
       chronological_events settings timestamps anomalies scores values metric_name in
     let events :=
       group_anomalies settings timestamps anomalies scores values metric_name in
     Forall (fun e => is_nan (RankedEvent.priority e) = false) chronological ->
     StronglySorted by_priority events /\
     Permutation events chronological /\
     forall p, with_priority p events = with_priority p chronological).
Proof.
  split.
  - intros settings timestamps anomalies scores values metric_name Hs chronological events.
    destruct (group_anomalies_ranked settings timestamps anomalies scores values
                metric_name) as (Hperm & Hstable & Hsorted).
    split; [|split; assumption].
    now apply Hsorted, chronological_priorities.
  - intros settings timestamps anomalies scores values metric_name chronological events Hp.
    destruct (group_anomalies_ranked settings timestamps anomalies scores values
                metric_name) as (Hperm & Hstable & Hsorted).
    split; [|split; assumption].
    now apply Hsorted.
Qed.

Lemma group_anomalies_sorted_stable_witness :
  map (fun e => (Event.start_time (RankedEvent.event e), RankedEvent.priority e))
    (group_anomalies (F:=Exact.t) default_settings
       [0; 400000000; 500000000; 1000000000; 10001000000]
       [true; true; true; false; true]
       [dec 5 1; dec 4 1; dec 4 1; dec 1 0; dec 5 1]
       [of_int 10; of_int 20; of_int 7; of_int 7; of_int 7] "cpu")
  = [(400000000, Exact.Num (293 # 1000));
     (0, Exact.Num (7 # 25));
     (10001000000, Exact.Num (7 # 25))] /\
  StronglySorted by_priority
    (group_anomalies (F:=Exact.t) default_settings
       [0; 400000000; 500000000; 1000000000; 10001000000]
       [true; true; true; false; true]
       [dec 5 1; dec 4 1; dec 4 1; dec 1 0; dec 5 1]
       [of_int 10; of_int 20; of_int 7; of_int 7; of_int 7] "cpu").
Proof.
  split; [reflexivity|].
  apply (proj1 group_anomalies_sorted_stable).
  repeat constructor.
Defined.

(** ** Event grouper: the grouping window *)

Lemma extend_event_fields `{Float F} (e : Event.t F) (ts : Z) (score val : F) :
  let e' := extend_event e ts score val in
  Event.start_time e' = Event.start_time e /\
  Event.end_time e' = ts /\
  Event.metric e' = Event.metric e /\
  Event.max_score e' = py_max (Event.max_score e) score /\
  Event.anomaly_points e' = Event.anomaly_points e + 1 /\
  Event.timestamps e' = Event.timestamps e ++ [ts] /\
  Event.values e' = Event.values e ++ [val].
Proof. unfold extend_event. destruct (fltb _ _); cbn; repeat split. Qed.

(** The scan of two anomalous points. *)
Lemma scan_two_anomalous `{Float F} (settings : Settings F) (metric_name : string)
    (t1 t2 : Z) (s1 s2 v1 v2 : F) :
  scan settings metric_name [(t1, true, s1, v1); (t2, true, s2, v2)]
  = if fleb (total_seconds (t2 - t1)) (of_int (anomaly_grouping_window_seconds settings))
    then [extend_event (new_event metric_name t1 s1 v1) t2 s2 v2]
    else [new_event metric_name t1 s1 v1; new_event metric_name t2 s2 v2].
Proof. rewrite scan_fold. cbn. now destruct (fleb _ _). Qed.

Lemma group_anomalies_two `{Float F} (settings : Settings F) (metric_name : string)
    (t1 t2 : Z) (s1 s2 v1 v2 : F) :
  length (group_anomalies settings [t1; t2] [true; true] [s1; s2] [v1; v2] metric_name)
  = if fleb (total_seconds (t2 - t1)) (of_int (anomaly_grouping_window_seconds settings))
    then 1%nat else 2%nat.
Proof.
  rewrite group_anomalies_sort, length_sort_reverse.
  unfold chronological_events. rewrite length_map.
  change (points_zip [t1; t2] [true; true] [s1; s2] [v1; v2])
    with [(t1, true, s1, v1); (t2, true, s2, v2)].
  rewrite scan_two_anomalous. now destruct (fleb _ _).
Qed.

(** In exact arithmetic the test of the window compares the gap, in
    microseconds, with the window. *)
Lemma exact_gap (gap window_seconds : Z) :
  fleb (total_seconds (F:=Exact.t) gap) (of_int window_seconds) = true
  <-> gap <= window_seconds * 1000000.
Proof.
  unfold total_seconds.
  rewrite (exact_leb _ _ _ _ (is_num_truediv gap 1000000 ltac:(discriminate))
             (is_num_of_int window_seconds)).
  rewrite Zle_Qle, inject_Z_mult.
  change (inject_Z 1000000) with 1000000%Q.
  set (g := inject_Z gap). set (w := inject_Z window_seconds).
  assert (Hg : (g / 1000000 * 1000000 == g)%Q) by field.
  split; intros Hle.
  - rewrite <- Hg. apply Qmult_le_compat_r; [exact Hle | discriminate].
  - apply Qle_shift_div_r; [reflexivity | exact Hle].
Qed.

(** C2. Two consecutive anomalous points [(t1, _)] and [(t2, _)],
    wherever they stand in the series: when their gap is at most the
    window, one event holds both, [t2] next to [t1] in its timestamps;
    when the gap exceeds the window, the event that ends at [t1] is
    closed and the next event starts at [t2]. With the window of 300
    seconds, anomalous points at 0 s and 200 s make one event, at 0 s and
    400 s two events, in exact arithmetic and in binary64. *)
Theorem grouping_window :
  (forall (settings : Settings Exact.t) (metric_name : string)
          (before after : list (Z * bool * Exact.t * Exact.t))
          (t1 t2 : Z) (s1 v1 s2 v2 : Exact.t),
     let window := anomaly_grouping_window_seconds settings * 1000000 in
     let events :=
       scan settings metric_name
         (before ++ (t1, true, s1, v1) :: (t2, true, s2, v2) :: after) in
     (t2 - t1 <= window ->
      exists e earlier later,
        e ∈ events /\
        Event.timestamps e = earlier ++ t1 :: t2 :: later) /\
     (window < t2 - t1 ->
      exists closed e1 e2 opened earlier later,
        events = closed ++ e1 :: e2 :: opened /\
        Event.end_time e1 = t1 /\
        Event.timestamps e1 = earlier ++ [t1] /\
        Event.start_time e2 = t2 /\
        Event.timestamps e2 = t2 :: later)) /\
  (forall s1 v1 s2 v2 : Exact.t,
     length (group_anomalies default_settings [0; 200000000] [true; true]
               [s1; s2] [v1; v2] "cpu") = 1%nat /\
     length (group_anomalies default_settings [0; 400000000] [true; true]
               [s1; s2] [v1; v2] "cpu") = 2%nat) /\
  (forall s1 v1 s2 v2 : float,
     length (group_anomalies default_settings [0; 200000000] [true; true]
               [s1; s2] [v1; v2] "cpu") = 1%nat /\
     length (group_anomalies default_settings [0; 400000000] [true; true]
               [s1; s2] [v1; v2] "cpu") = 2%nat).
Proof.
  split; [|split; intros; split; rewrite group_anomalies_two; reflexivity].
  intros settings metric_name before after t1 t2 s1 v1 s2 v2 window events.
  subst events. rewrite scan_fold.
  change (before ++ (t1, true, s1, v1) :: (t2, true, s2, v2) :: after)
    with (before ++ [(t1, true, s1, v1)] ++ (t2, true, s2, v2) :: after).
  rewrite !fold_left_app. cbn [fold_left].
  destruct (step_anomalous settings metric_name
              (fold_left (step settings metric_name) before ([], None)) t1 s1 v1)
    as (closed & e1 & earlier & -> & Hend & Hts).
  cbn [step negb]. rewrite Hend.
  destruct (fleb _ _) eqn:Hgap.
  - split; [intros _ | intros Hgt; apply exact_gap in Hgap; subst window; lia].
    destruct (fold_step_open settings metric_name after closed
                (extend_event e1 t2 s2 v2)) as (e & later & more & -> & _ & Hl).
    exists e, earlier, later. split.
    + apply elem_of_app. right. apply elem_of_cons. now left.
    + rewrite Hl. destruct (extend_event_fields e1 t2 s2 v2) as (_ & _ & _ & _ & _ & -> & _).
      rewrite Hts, <- !app_assoc. reflexivity.
  - split.
    { intros Hle. apply exact_gap in Hle. subst window. congruence. }
    intros _.
    destruct (fold_step_open settings metric_name after (closed ++ [e1])
                (new_event metric_name t2 s2 v2)) as (e2 & later & more & -> & Hs & Hl).
    exists closed, e1, e2, more, earlier, later.
    rewrite <- app_assoc. repeat split; assumption.
Qed.

Lemma grouping_window_witness :
  exists e earlier later,
    e ∈ scan (F:=Exact.t) default_settings "cpu"
          ([(0, false, of_int 0, of_int 50)]
           ++ (60000000, true, dec 8 1, of_int 90)
              :: (360000000, true, dec 9 1, of_int 95)
              :: [(420000000, false, of_int 0, of_int 50)]) /\
    Event.timestamps e = earlier ++ 60000000 :: 360000000 :: later.
Proof.
  apply (proj1 grouping_window default_settings "cpu"
           [(0, false, of_int 0, of_int 50)]
           [(420000000, false, of_int 0, of_int 50)]
           60000000 360000000 (dec 8 1) (of_int 90) (dec 9 1) (of_int 95)).
  cbn. lia.
Defined.

(** ** Event grouper: the peak value *)

Section PeakValue.
Context `{FloatOrder F}.

(** The branch that continues an event compares the score with the
    maximum it has just stored: the comparison never holds, and the peak
    value stays. *)
Lemma extend_event_peak_value (e : Event.t F) (ts : Z) (score val : F) :
  Event.peak_value (extend_event e ts score val) = Event.peak_value e.
Proof.
  unfold extend_event; cbn [Event.max_score]. unfold py_max.
  destruct (fltb (Event.max_score e) score) eqn:E.
  - now rewrite ltb_irrefl.
  - now rewrite E.
Qed.

(** So the peak value of an event is the value of its first point. *)
Lemma scan_peak_value (settings : Settings F) (metric_name : string)
    (points : list (Z * bool * F * F)) :
  Forall (fun e => head (Event.values e) = Some (Event.peak_value e))
    (scan settings metric_name points).
Proof.
  rewrite scan_fold.
  apply (fold_step_Forall settings metric_name _ (fun _ => True)).
  - reflexivity.
  - intros e ts score val He _. rewrite extend_event_peak_value, <- He.
    destruct (extend_event_fields e ts score val) as (_ & _ & _ & _ & _ & _ & ->).
    now destruct (Event.values e).
  - now apply Forall_forall.
  - constructor.
  - discriminate.
Qed.

End PeakValue.

(** C1 (what the code does). Two anomalous points one minute apart,
    with scores 0.5 and 0.9 and values 10 and 20, make one event whose
    [max_score] is 0.9, the score of the second point, and whose
    [peak_value] is 10, the value of the first; and for every series, in
    binary64 as in exact arithmetic, the peak value of an event is the
    value of its first point. *)
Theorem peak_value_is_first_value :
  group_anomalies (F:=float) default_settings
    [0; 60000000] [true; true] [0.5%float; 0.9%float] [10%float; 20%float] "cpu"
  = [ {| RankedEvent.event :=
           {| Event.start_time := 0;
              Event.end_time := 60000000;
              Event.metric := "cpu";
              Event.max_score := 0.9%float;
              Event.anomaly_points := 2;
              Event.peak_value := 10%float;
              Event.timestamps := [0; 60000000];
              Event.values := [10%float; 20%float] |};
         RankedEvent.duration_seconds := 60%float;
         RankedEvent.priority := 0.53%float |} ] /\
  (forall settings metric_name (points : list (Z * bool * float * float)),
     Forall (fun e => head (Event.values e) = Some (Event.peak_value e))
       (scan settings metric_name points)) /\
  (forall settings metric_name (points : list (Z * bool * Exact.t * Exact.t)),
     Forall (fun e => head (Event.values e) = Some (Event.peak_value e))
       (scan settings metric_name points)).
Proof.
  split; [vm_compute; reflexivity|].
  split; intros; apply scan_peak_value.
Qed.

(** ** Constant series *)


(** Numbers in lowest terms, as the operations of the exact arithmetic
    return them: 0 has one representation. *)
Lemma exact_zero (a : Q) : (a == 0)%Q -> Exact.Num (Qred a) = of_int 0.
Proof. intros Ha. cbn. f_equal. now rewrite (Qred_eq a 0 Ha). Qed.

Lemma exact_sub_self (x : Exact.t) (c : Q) y :
  is_num x c -> is_num y c -> fsub x y = of_int 0.
Proof.
  intros (a & -> & Ha)%is_num_inv (b & -> & Hb)%is_num_inv.
  apply exact_zero. rewrite Ha, Hb. ring.
Qed.

Lemma exact_sqrt_zero : fsqrt (of_int (F:=Exact.t) 0) = of_int 0.
Proof. reflexivity. Qed.













(** * Further properties *)

(** ** Scores of the statistical scorers *)

Section ClipRange.
Context `{FloatOrder F}.
Hypothesis zero_numeric : is_nan (of_int 0) = false.
Hypothesis one_numeric : is_nan (of_int 1) = false.
Hypothesis zero_le_one : fleb (of_int 0) (of_int 1) = true.

Lemma leb_refl (x : F) : is_nan x = false -> fleb x x = true.
Proof. intros Hx. apply leb_total; auto. apply ltb_irrefl. Qed.

Lemma unit_score_zero : unit_score (of_int 0).
Proof. split; [now apply leb_refl | exact zero_le_one]. Qed.

Lemma clip_unit (x : F) :
  is_nan (np.clip x (of_int 0) (of_int 1)) = true \/
  unit_score (np.clip x (of_int 0) (of_int 1)).
Proof.
  unfold np.clip, np.maximum. rewrite zero_numeric.
  destruct (is_nan x) eqn:Hx.
  { left. unfold np.minimum. now rewrite Hx. }
  right.
  set (m := if fltb x (of_int 0) then of_int 0 else x).
  assert (Hm : is_nan m = false) by (subst m; now destruct (fltb x _)).
  assert (H0m : fleb (of_int 0) m = true).
  { subst m. destruct (fltb x (of_int 0)) eqn:E.
    - now apply leb_refl.
    - now apply leb_total. }
  unfold np.minimum. rewrite Hm, one_numeric.
  destruct (fltb (of_int 1) m) eqn:E.
  - split; [exact zero_le_one | now apply leb_refl].
  - split; [exact H0m | now apply leb_total].
Qed.

Lemma Forall_zeros (n : nat) :
  Forall (fun s : F => is_nan s = true \/ unit_score s) (np.zeros n).
Proof. apply List.Forall_forall. intros s Hs. apply repeat_spec in Hs. subst s. right. apply unit_score_zero. Qed.

Lemma Forall_clip (threshold : F) (z_scores : list F) :
  Forall (fun s : F => is_nan s = true \/ unit_score s)
    (map (fun z => np.clip (fdiv z (fmul threshold (of_int 2))) (of_int 0) (of_int 1))
       z_scores).
Proof. apply List.Forall_forall. intros s (z & <- & _)%in_map_iff. apply clip_unit. Qed.

Lemma zscore_bounded (self : ZScoreDetector.t) (X : list F) :
  bounded_scores X (ZScoreDetector.fit_predict self X).
Proof.
  unfold bounded_scores, ZScoreDetector.fit_predict, ZScoreDetector.predict.
  cbn [ZScoreDetector.fit ZScoreDetector.mean_ ZScoreDetector.std_ ZScoreDetector.threshold].
  destruct (feqb (np.std X) (of_int 0)).
  - eexists _, _. split; [reflexivity|].
    rewrite length_zeros, length_zeros_bool. repeat split. apply Forall_zeros.
  - eexists _, _. split; [reflexivity|].
    unfold np.abs. rewrite !length_map. repeat split. apply Forall_clip.
Qed.

Lemma moving_average_bounded (self : MovingAverageDetector.t) (X : list F) :
  0 <= MovingAverageDetector.window_size self ->
  bounded_scores X (MovingAverageDetector.predict self X).
Proof.
  intros Hw. unfold bounded_scores.
  destruct (Z_lt_le_dec (len X) (MovingAverageDetector.window_size self)) as [Hlt | Hle].
  - unfold MovingAverageDetector.predict.
    apply Z.ltb_lt in Hlt. rewrite Hlt.
    eexists _, _. split; [reflexivity|].
    rewrite length_zeros, length_zeros_bool. repeat split. apply Forall_zeros.
  - destruct (moving_average_predict self X (conj Hw Hle)) as (z & Hz & ->).
    eexists _, _. split; [reflexivity|].
    rewrite !length_map, length_set_head. repeat split; auto. apply Forall_clip.
Qed.

End ClipRange.

Lemma moving_average_negative_window `{Float F} (self : MovingAverageDetector.t) (X : list F) :
  MovingAverageDetector.window_size self < 0 ->
  MovingAverageDetector.predict self X
  = Raises (ValueError "window must be an integer 0 or greater").
Proof.
  intros Hw. unfold MovingAverageDetector.predict, pd.rolling.
  assert (E : (len X <? MovingAverageDetector.window_size self) = false).
  { apply Z.ltb_ge. unfold len. lia. }
  rewrite E. apply Z.ltb_lt in Hw. now rewrite Hw.
Qed.

(** X1. The z-score scorer returns on every series, the empty one and
    those with values that are not numbers included: one flag and one
    score for each point, every score between 0 and 1 unless it is not a
    number; a detector that was not fitted raises [ValueError]. In
    binary64 and in exact arithmetic. *)
Theorem zscore_scores_bounded :
  (forall (self : ZScoreDetector.t) (X : list float),
     bounded_scores X (ZScoreDetector.fit_predict self X)) /\
  (forall (self : ZScoreDetector.t) (X : list Exact.t),
     bounded_scores X (ZScoreDetector.fit_predict self X)) /\
  (forall `{Float F} (threshold : F) (X : list F),
     exists msg,
       ZScoreDetector.predict (ZScoreDetector.__init__ threshold) X
       = Raises (ValueError msg)).
Proof.
  split; [|split].
  - intros. now apply zscore_bounded.
  - intros. now apply zscore_bounded.
  - intros. now eexists.
Qed.

(** X2. The moving-average scorer with a window that is not negative
    returns on every series, one flag and one score for each point,
    every score between 0 and 1 unless it is not a number; with a
    negative window it raises the [ValueError] of [rolling] on every
    series. In binary64 and in exact arithmetic. *)
Theorem moving_average_scores_bounded :
  (forall (self : MovingAverageDetector.t) (X : list float),
     0 <= MovingAverageDetector.window_size self ->
     bounded_scores X (MovingAverageDetector.fit_predict self X)) /\
  (forall (self : MovingAverageDetector.t) (X : list Exact.t),
     0 <= MovingAverageDetector.window_size self ->
     bounded_scores X (MovingAverageDetector.fit_predict self X)) /\
  (forall `{Float F} (self : MovingAverageDetector.t) (X : list F),
     MovingAverageDetector.window_size self < 0 ->
     exists msg, MovingAverageDetector.fit_predict self X = Raises (ValueError msg)).
Proof.
  split; [|split].
  - intros. now apply moving_average_bounded.
  - intros. now apply moving_average_bounded.
  - intros. eexists. now apply moving_average_negative_window.
Qed.

Lemma moving_average_scores_bounded_witness :
  bounded_scores [1%float; 2%float; 9%float; 2%float]
    (MovingAverageDetector.fit_predict
       {| MovingAverageDetector.window_size := 3;
          MovingAverageDetector.threshold := 1%float |}
       [1%float; 2%float; 9%float; 2%float]) /\
  exists msg,
    MovingAverageDetector.fit_predict
      {| MovingAverageDetector.window_size := -1;
         MovingAverageDetector.threshold := 1%float |} [1%float; 2%float]
    = Raises (ValueError msg).
Proof.
  split.
  - apply (proj1 moving_average_scores_bounded). cbn. lia.
  - apply (proj2 (proj2 moving_average_scores_bounded)). cbn. lia.
Defined.

(** ** Flags and scores in exact arithmetic *)

Lemma np_maximum_py_max (x y : Exact.t) (a b : Q) :
  is_num x a -> is_num y b -> np.maximum x y = py_max x y.
Proof. intros (? & -> & _)%is_num_inv (? & -> & _)%is_num_inv. reflexivity. Qed.

Lemma np_minimum_py_min (x y : Exact.t) (a b : Q) :
  is_num x a -> is_num y b -> np.minimum x y = py_min x y.
Proof. intros (? & -> & _)%is_num_inv (? & -> & _)%is_num_inv. reflexivity. Qed.

Lemma is_num_clip (x : Exact.t) (v : Q) :
  is_num x v -> is_num (np.clip x (of_int 0) (of_int 1)) (Qmin (Qmax v 0) 1).
Proof.
  intros Hx. unfold np.clip.
  rewrite (np_maximum_py_max x (of_int 0) v 0 Hx (is_num_of_int 0)).
  pose proof (is_num_py_max _ _ _ _ Hx (is_num_of_int 0)) as Hm.
  rewrite (np_minimum_py_min _ (of_int 1) _ 1 Hm (is_num_of_int 1)).
  apply (is_num_py_min _ _ _ _ Hm (is_num_of_int 1)).
Qed.

Lemma exact_positive (t : Exact.t) :
  fltb (of_int 0) t = true -> exists p, t = Exact.Num p /\ (0 < p)%Q.
Proof.
  destruct t as [p|]; [|discriminate]. intros Ht. exists p. split; [reflexivity|].
  now apply (exact_ltb (of_int 0) (Exact.Num p) 0 p (is_num_of_int 0) (Qeq_refl p)).
Qed.

Lemma is_num_score (t z : Exact.t) (p q : Q) :
  is_num t p -> is_num z q -> ~ (p == 0)%Q ->
  is_num (np.clip (fdiv z (fmul t (of_int 2))) (of_int 0) (of_int 1))
    (Qmin (Qmax (q / (p * 2)) 0) 1).
Proof.
  intros Ht Hz Hp. apply is_num_clip, is_num_div; auto.
  - apply (is_num_mul _ _ _ _ Ht (is_num_of_int 2)).
  - intros E. apply Hp. apply (Qmult_integral_l 2); [discriminate|].
    now rewrite Qmult_comm.
Qed.

(** A z-score exceeds a positive threshold exactly when the score made
    of it exceeds one half. *)
Lemma exact_flag_score (t z : Exact.t) :
  fltb (of_int 0) t = true ->
  fltb t z = fltb (dec 5 1) (np.clip (fdiv z (fmul t (of_int 2))) (of_int 0) (of_int 1)).
Proof.
  intros (p & -> & Hp)%exact_positive.
  destruct z as [q|]; [|reflexivity].
  assert (Hp0 : ~ (p == 0)%Q) by (intros E; rewrite E in Hp; discriminate).
  pose proof (is_num_score (Exact.Num p) (Exact.Num q) p q
                (Qeq_refl p) (Qeq_refl q) Hp0) as Hs.
  apply Bool.eq_iff_eq_true.
  rewrite (exact_ltb (Exact.Num p) (Exact.Num q) p q (Qeq_refl p) (Qeq_refl q)).
  rewrite (exact_ltb _ _ _ _ (is_num_dec 5 1) Hs).
  change (inject_Z 5 / inject_Z (10 ^ Z.of_nat 1))%Q with (5 # 10)%Q.
  rewrite Q.min_glb_lt_iff, Q.max_lt_iff.
  assert (H2p : (0 < p * 2)%Q) by (apply Qmult_lt_0_compat; [exact Hp | reflexivity]).
  split.
  - intros Hlt. split; [left | reflexivity].
    apply Qlt_shift_div_l; [exact H2p|]. lra.
  - intros [[Hlt | Hlt] _]; [|discriminate].
    assert (E : (q == q / (p * 2) * (p * 2))%Q) by (field; lra).
    apply (Qmult_lt_r _ _ (p * 2) H2p) in Hlt. lra.
Qed.

Lemma Forall2_zeros `{Float F} (P : bool -> F -> Prop) (n : nat) :
  P false (of_int 0) -> Forall2 P (np.zeros_bool n) (np.zeros n).
Proof. intros HP. induction n; cbn; constructor; auto. Qed.

Lemma Forall2_map_same {A B C} (P : B -> C -> Prop) (f : A -> B) (g : A -> C) (l : list A) :
  (forall x, P (f x) (g x)) -> Forall2 P (map f l) (map g l).
Proof. intros HP. induction l; cbn; constructor; auto. Qed.

Lemma zscore_flagged_above_half (self : ZScoreDetector.t) (X : list Exact.t) :
  fltb (of_int 0) (ZScoreDetector.threshold self) = true ->
  flagged_above_half (ZScoreDetector.fit_predict self X).
Proof.
  intros Ht anomalies scores.
  unfold ZScoreDetector.fit_predict, ZScoreDetector.predict.
  cbn [ZScoreDetector.fit ZScoreDetector.mean_ ZScoreDetector.std_ ZScoreDetector.threshold].
  destruct (feqb (np.std X) (of_int 0)); intros [= <- <-].
  - now apply Forall2_zeros.
  - apply Forall2_map_same. intros z. now apply exact_flag_score.
Qed.

Lemma moving_average_flagged_above_half (self : MovingAverageDetector.t) (X : list Exact.t) :
  fltb (of_int 0) (MovingAverageDetector.threshold self) = true ->
  flagged_above_half (MovingAverageDetector.fit_predict self X).
Proof.
  intros Ht anomalies scores. unfold MovingAverageDetector.fit_predict.
  destruct (Z_lt_le_dec (MovingAverageDetector.window_size self) 0) as [Hneg | Hw].
  { now rewrite moving_average_negative_window. }
  destruct (Z_lt_le_dec (len X) (MovingAverageDetector.window_size self)) as [Hlt | Hle].
  - unfold MovingAverageDetector.predict.
    apply Z.ltb_lt in Hlt. rewrite Hlt. intros [= <- <-]. now apply Forall2_zeros.
  - destruct (moving_average_predict self X (conj Hw Hle)) as (z & Hz & ->).
    intros [= <- <-]. apply Forall2_map_same. intros z'. now apply exact_flag_score.
Qed.

(** X3. In exact arithmetic and with a positive threshold, both
    statistical scorers flag a point exactly when its score exceeds one
    half: the flag is [z > threshold] and the score
    [clip(z / (2 * threshold), 0, 1)]. *)
Theorem flag_iff_score_above_half :
  (forall (self : ZScoreDetector.t) (X : list Exact.t),
     fltb (of_int 0) (ZScoreDetector.threshold self) = true ->
     flagged_above_half (ZScoreDetector.fit_predict self X)) /\
  (forall (self : MovingAverageDetector.t) (X : list Exact.t),
     fltb (of_int 0) (MovingAverageDetector.threshold self) = true ->
     flagged_above_half (MovingAverageDetector.fit_predict self X)).
Proof. split; [apply zscore_flagged_above_half | apply moving_average_flagged_above_half]. Qed.

Lemma flag_iff_score_above_half_witness :
  Forall2 (fun (a : bool) s => a = fltb (dec 5 1) s)
    [false; false; false; true]
    [Exact.Num (1 # 2); Exact.Num (1 # 2); Exact.Num (1 # 2); Exact.Num 1].
Proof.
  apply (proj1 flag_iff_score_above_half
           (ZScoreDetector.__init__ (Exact.Num 1))
           [Exact.Num 1; Exact.Num 1; Exact.Num 1; Exact.Num 5]).
  - reflexivity.
  - vm_compute. reflexivity.
Defined.

(** ** Scores on a series of numbers, in exact arithmetic *)

Lemma exact_sum_numeric (l : list Exact.t) :
  Forall (fun x => is_nan x = false) l -> exists q, is_num (np.sum l) q.
Proof.
  unfold np.sum. generalize (is_num_of_int 0). generalize (inject_Z 0).
  generalize (of_int (F:=Exact.t) 0).
  induction l as [|x l IH]; intros acc a Hacc Hl; cbn [fold_left]; [now exists a|].
  apply Forall_cons_1 in Hl as [[q Hq]%numeric_is_num Hl].
  apply (IH _ (a + q)%Q); [now apply is_num_add | exact Hl].
Qed.

Lemma exact_sum_nonneg (l : list Exact.t) :
  Forall (fun x => exists q, is_num x q /\ (0 <= q)%Q) l ->
  exists q, is_num (np.sum l) q /\ (0 <= q)%Q.
Proof.
  unfold np.sum.
  assert (H0 : (0 <= inject_Z 0)%Q) by discriminate.
  revert H0. generalize (is_num_of_int 0). generalize (inject_Z 0).
  generalize (of_int (F:=Exact.t) 0).
  induction l as [|x l IH]; intros acc a Hacc Ha Hl; cbn [fold_left]; [now exists a|].
  apply Forall_cons_1 in Hl as [(q & Hq & Hq0) Hl].
  apply (IH _ (a + q)%Q); [now apply is_num_add | lra | exact Hl].
Qed.

Lemma is_num_sqrt (x : Exact.t) (a : Q) :
  is_num x a -> (0 <= a)%Q -> exists r, is_num (fsqrt x) r.
Proof.
  intros (x' & -> & Hx)%is_num_inv Ha. cbn.
  destruct (Qle_bool 0 (Qred x')) eqn:E.
  - eexists. cbn. reflexivity.
  - apply not_true_iff_false in E. exfalso. apply E.
    apply Qle_bool_iff. now rewrite Qred_correct, Hx.
Qed.

Lemma is_num_abs (x : Exact.t) (a : Q) : is_num x a -> is_num (fabs x) (Qabs a).
Proof. intros (x' & -> & Hx)%is_num_inv. apply is_num_Num. now rewrite Hx. Qed.

Lemma is_num_numeric (x : Exact.t) (a : Q) : is_num x a -> is_nan x = false.
Proof. now intros (x' & -> & _)%is_num_inv. Qed.

Lemma Qsquare_nonneg (x : Q) : (0 <= x * x)%Q.
Proof.
  destruct (Qlt_le_dec x 0) as [Hn|Hp].
  - assert (E : (x * x == (- x) * (- x))%Q) by ring.
    rewrite E. apply Qmult_le_0_compat; lra.
  - now apply Qmult_le_0_compat.
Qed.

(** The squared deviations from a number are numbers that are not negative. *)
Lemma exact_squares (m : Exact.t) (c : Q) (l : list Exact.t) :
  is_num m c ->
  Forall (fun x => is_nan x = false) l ->
  Forall (fun x => exists q, is_num x q /\ (0 <= q)%Q)
    (map (fun a => fmul (fsub a m) (fsub a m)) l).
Proof.
  intros Hm Hl. apply List.Forall_map. eapply Forall_impl; [exact Hl|].
  intros x [q Hq]%numeric_is_num. exists ((q - c) * (q - c))%Q. split.
  - apply is_num_mul; now apply is_num_sub.
  - apply Qsquare_nonneg.
Qed.

Lemma len_nonzero {A} (l : list A) : l <> [] -> len l <> 0.
Proof. destruct l; [congruence | unfold len; cbn; lia]. Qed.

Lemma inject_Z_nonzero (n : Z) : n <> 0 -> ~ (inject_Z n == 0)%Q.
Proof. intros Hn E. apply Hn. unfold Qeq in E. cbn in E. lia. Qed.

Lemma exact_np_mean (X : list Exact.t) :
  X <> [] -> Forall (fun x => is_nan x = false) X -> exists c, is_num (np.mean X) c.
Proof.
  intros Hne [s Hs]%exact_sum_numeric. eexists. unfold np.mean.
  apply is_num_div; [exact Hs | apply is_num_of_int |].
  now apply inject_Z_nonzero, len_nonzero.
Qed.

Lemma exact_np_std (X : list Exact.t) :
  X <> [] -> Forall (fun x => is_nan x = false) X -> exists r, is_num (np.std X) r.
Proof.
  intros Hne HX. destruct (exact_np_mean X Hne HX) as [c Hc].
  unfold np.std. rewrite List.map_map.
  destruct (exact_sum_nonneg _ (exact_squares _ c X Hc HX)) as (s & Hs & Hs0).
  pose proof (len_nonzero X Hne) as Hn.
  eapply is_num_sqrt.
  - apply is_num_div; [exact Hs | apply is_num_of_int | now apply inject_Z_nonzero].
  - apply Qle_shift_div_l; [|lra].
    change 0%Q with (inject_Z 0). rewrite <- Zlt_Qlt. unfold len in *. lia.
Qed.

Lemma exact_pd_mean (l : list Exact.t) :
  l <> [] -> Forall (fun x => is_nan x = false) l -> exists c, is_num (pd.mean (Some l)) c.
Proof.
  intros Hne Hl. cbn [pd.mean]. pose proof (len_nonzero l Hne) as Hn.
  destruct (Z.eqb_spec (len l) 0); [contradiction|].
  now apply exact_np_mean.
Qed.

Lemma exact_pd_std (l : list Exact.t) :
  1 < len l -> Forall (fun x => is_nan x = false) l -> exists r, is_num (pd.std (Some l)) r.
Proof.
  intros Hn Hl. cbn [pd.std]. destruct (Z.leb_spec (len l) 1); [lia|].
  assert (Hne : l <> []) by (intros ->; unfold len in Hn; cbn in Hn; lia).
  destruct (exact_np_mean l Hne Hl) as [c Hc]. cbv zeta.
  destruct (exact_sum_nonneg _ (exact_squares _ c l Hc Hl)) as (s & Hs & Hs0).
  eapply is_num_sqrt.
  - apply is_num_div; [exact Hs | apply is_num_of_int | apply inject_Z_nonzero; lia].
  - apply Qle_shift_div_l; [|lra].
    change 0%Q with (inject_Z 0). rewrite <- Zlt_Qlt. lia.
Qed.

Lemma exact_unit_score (t z : Exact.t) :
  fltb (of_int 0) t = true -> is_nan z = false ->
  unit_score (np.clip (fdiv z (fmul t (of_int 2))) (of_int 0) (of_int 1)).
Proof.
  intros (p & -> & Hp)%exact_positive [q Hq]%numeric_is_num.
  assert (Hp0 : ~ (p == 0)%Q) by (intros E; rewrite E in Hp; discriminate).
  pose proof (is_num_score (Exact.Num p) z p q (Qeq_refl p) Hq Hp0) as Hs.
  split.
  - apply (exact_leb _ _ _ _ (is_num_of_int 0) Hs).
    apply Q.min_glb; [apply Q.le_max_r | discriminate].
  - apply (exact_leb _ _ _ _ Hs (is_num_of_int 1)). apply Q.le_min_r.
Qed.

Lemma exact_unit_scores (t : Exact.t) (z_scores : list Exact.t) :
  fltb (of_int 0) t = true ->
  Forall (fun z => is_nan z = false) z_scores ->
  Forall unit_score
    (map (fun z => np.clip (fdiv z (fmul t (of_int 2))) (of_int 0) (of_int 1)) z_scores).
Proof.
  intros Ht Hz. apply List.Forall_map. eapply Forall_impl; [exact Hz|].
  intros z Hn. now apply exact_unit_score.
Qed.

Lemma exact_unit_zeros (n : nat) : Forall unit_score (np.zeros (F:=Exact.t) n).
Proof. apply List.Forall_forall. intros s ->%repeat_spec. now split. Qed.

Lemma zscore_numeric_scores (self : ZScoreDetector.t) (X : list Exact.t) :
  fltb (of_int 0) (ZScoreDetector.threshold self) = true ->
  Forall (fun x => is_nan x = false) X ->
  exists anomalies scores,
    ZScoreDetector.fit_predict self X = Returns (anomalies, scores) /\
    Forall unit_score scores.
Proof.
  intros Ht HX.
  unfold ZScoreDetector.fit_predict, ZScoreDetector.predict.
  cbn [ZScoreDetector.fit ZScoreDetector.mean_ ZScoreDetector.std_ ZScoreDetector.threshold].
  destruct (feqb (np.std X) (of_int 0)) eqn:Hstd.
  { eexists _, _. split; [reflexivity | apply exact_unit_zeros]. }
  eexists _, _. split; [reflexivity|].
  apply exact_unit_scores; [exact Ht|].
  destruct X as [|x0 X']; [constructor|].
  set (X := x0 :: X') in *. assert (Hne : X <> []) by discriminate.
  destruct (exact_np_mean X Hne HX) as [c Hc].
  destruct (exact_np_std X Hne HX) as [r Hr].
  assert (Hr0 : ~ (r == 0)%Q).
  { intros E. apply (exact_eqb _ _ _ _ Hr (is_num_of_int 0)) in E. congruence. }
  unfold np.abs. rewrite List.map_map. apply List.Forall_map.
  eapply Forall_impl; [exact HX|].
  intros x [q Hq]%numeric_is_num. eapply is_num_numeric, is_num_abs.
  apply is_num_div; [apply is_num_sub|exact Hr|exact Hr0]; eauto.
Qed.

(** The local z-score of a point whose window is full, on a series of
    numbers: a number. *)
Lemma exact_local_z_score (x : Exact.t) (l : list Exact.t) :
  is_nan x = false -> 1 < len l -> Forall (fun x => is_nan x = false) l ->
  let window := Some l in
  let rolling_std := if feqb (pd.std window) (of_int 0) then dec 1 6 else pd.std window in
  is_nan (fabs (fdiv (fsub x (pd.mean window)) rolling_std)) = false.
Proof.
  intros [q Hq]%numeric_is_num Hn Hl window rolling_std.
  assert (Hne : l <> []) by (intros ->; unfold len in Hn; cbn in Hn; lia).
  destruct (exact_pd_mean l Hne Hl) as [c Hc].
  destruct (exact_pd_std l Hn Hl) as [r Hr].
  assert (Hstd : exists r', is_num rolling_std r' /\ ~ (r' == 0)%Q).
  { subst rolling_std window. destruct (feqb (pd.std (Some l)) (of_int 0)) eqn:E.
    - eexists. split; [apply is_num_dec | discriminate].
    - exists r. split; [exact Hr|].
      intros E'. apply (exact_eqb _ _ _ _ Hr (is_num_of_int 0)) in E'. congruence. }
  destruct Hstd as (r' & Hr' & Hr0).
  eapply is_num_numeric, is_num_abs, is_num_div; [apply is_num_sub| |]; eauto.
Qed.

Lemma lookup_set_head_ge `{Float F} (n : Z) (v : F) (s : list F) (i : nat) :
  0 <= n <= Z.of_nat i -> pd.set_head n v s !! i = s !! i.
Proof.
  intros Hn. unfold pd.set_head.
  destruct (Nat.lt_ge_cases i (length s)) as [Hi|Hi].
  - rewrite lookup_app_r by (rewrite repeat_length; lia).
    rewrite repeat_length, lookup_drop. f_equal. lia.
  - rewrite !lookup_ge_None_2; [reflexivity | exact Hi |].
    rewrite length_app, repeat_length, length_skipn. lia.
Qed.

Lemma moving_average_numeric_scores (self : MovingAverageDetector.t) (X : list Exact.t) :
  2 <= MovingAverageDetector.window_size self ->
  fltb (of_int 0) (MovingAverageDetector.threshold self) = true ->
  Forall (fun x => is_nan x = false) X ->
  exists anomalies scores,
    MovingAverageDetector.fit_predict self X = Returns (anomalies, scores) /\
    Forall unit_score scores.
Proof.
  destruct self as [window_size threshold].
  cbn [MovingAverageDetector.window_size MovingAverageDetector.threshold].
  intros Hw Ht HX.
  unfold MovingAverageDetector.fit_predict, MovingAverageDetector.predict.
  cbn [MovingAverageDetector.window_size MovingAverageDetector.threshold].
  destruct (Z.ltb_spec (len X) window_size) as [Hlt|Hge].
  { eexists _, _. split; [reflexivity | apply exact_unit_zeros]. }
  unfold pd.rolling. destruct (Z.ltb_spec window_size 0); [lia|].
  cbn [mbind outcome_bind].
  set (raw := np.abs _).
  eexists _, _. split; [reflexivity|].
  apply exact_unit_scores; [exact Ht|].
  assert (Hlen : length raw = length X).
  { subst raw. unfold np.abs, pd.replace.
    rewrite length_map, !length_zip_with, !length_map, length_seq. lia. }
  assert (Hraw : forall (i : nat) z,
             window_size <= Z.of_nat i -> raw !! i = Some z -> is_nan z = false).
  { intros i z Hiw. subst raw. unfold np.abs, pd.replace.
    rewrite list_lookup_fmap, !lookup_zip_with, !list_lookup_fmap.
    destruct (X !! i) as [x|] eqn:Hx; [|discriminate].
    pose proof (lookup_lt_Some _ _ _ Hx) as Hi.
    rewrite lookup_seq_lt by exact Hi.
    cbn [fmap option_fmap option_map mbind option_bind Nat.add].
    destruct (Z.ltb_spec (Z.of_nat (S i)) window_size); [lia|].
    intros [= <-]. apply exact_local_z_score.
    - exact (proj1 (Forall_lookup _ X) HX i x Hx).
    - unfold len. rewrite length_firstn, length_skipn. lia.
    - apply Forall_take, Forall_drop, HX. }
  apply Forall_lookup. intros i z Hz.
  destruct (Z.lt_ge_cases (Z.of_nat i) window_size) as [Hiw|Hiw].
  - apply lookup_lt_Some in Hz as Hi. rewrite length_set_head in Hi.
    rewrite lookup_set_head in Hz by (auto; lia). now injection Hz as <-.
  - rewrite lookup_set_head_ge in Hz by lia. now apply (Hraw i).
Qed.

(** X4. In exact arithmetic, on a series of numbers and with a positive
    threshold, every score of the z-score scorer is a number between 0
    and 1, and so is every score of the moving-average scorer when its
    window holds at least two points. With a window of one point the
    sample deviation of a window is not a number, and neither is the
    score of any point after the first. *)
Theorem numeric_series_numeric_scores :
  (forall (self : ZScoreDetector.t) (X : list Exact.t),
     fltb (of_int 0) (ZScoreDetector.threshold self) = true ->
     Forall (fun x => is_nan x = false) X ->
     exists anomalies scores,
       ZScoreDetector.fit_predict self X = Returns (anomalies, scores) /\
       Forall unit_score scores) /\
  (forall (self : MovingAverageDetector.t) (X : list Exact.t),
     2 <= MovingAverageDetector.window_size self ->
     fltb (of_int 0) (MovingAverageDetector.threshold self) = true ->
     Forall (fun x => is_nan x = false) X ->
     exists anomalies scores,
       MovingAverageDetector.fit_predict self X = Returns (anomalies, scores) /\
       Forall unit_score scores) /\
  (forall (threshold x0 x1 : Exact.t) (X : list Exact.t),
     exists anomalies score0 score1 scores,
       MovingAverageDetector.fit_predict
         {| MovingAverageDetector.window_size := 1;
            MovingAverageDetector.threshold := threshold |} (x0 :: x1 :: X)
       = Returns (anomalies, score0 :: score1 :: scores) /\
       is_nan score1 = true).
Proof.
  split; [|split].
  - apply zscore_numeric_scores.
  - apply moving_average_numeric_scores.
  - intros threshold x0 x1 X.
    unfold MovingAverageDetector.fit_predict, MovingAverageDetector.predict.
    cbn [MovingAverageDetector.window_size MovingAverageDetector.threshold].
    destruct (Z.ltb_spec (len (x0 :: x1 :: X)) 1) as [Hlt|_].
    { unfold len in Hlt. cbn [length] in Hlt. lia. }
    unfold pd.rolling. cbn [Z.ltb Z.compare mbind outcome_bind length seq map].
    eexists _, _, _, _. split; [reflexivity|].
    cbn. now destruct x1, threshold.
Qed.

Lemma numeric_series_numeric_scores_witness :
  exists anomalies scores,
    MovingAverageDetector.fit_predict
      {| MovingAverageDetector.window_size := 2;
         MovingAverageDetector.threshold := Exact.Num 1 |}
      [Exact.Num 1; Exact.Num 2; Exact.Num 9; Exact.Num 2]
    = Returns (anomalies, scores) /\
    Forall unit_score scores.
Proof.
  apply (proj1 (proj2 numeric_series_numeric_scores)).
  - cbn. lia.
  - reflexivity.
  - repeat constructor.
Defined.

(** ** Features of the detectors of scikit-learn *)

Lemma prepare_features_rows `{Float F} (x0 : F) (X : list F) :
  exists features,
    _prepare_features (x0 :: X) = Returns features /\
    length features = S (length X) /\
    features !! 0%nat = Some (x0, fsub x0 x0, of_int 0) /\
    (forall (i : nat) prev cur,
       (x0 :: X) !! i = Some prev -> (x0 :: X) !! S i = Some cur ->
       features !! S i = Some (feature_row prev cur)).
Proof.
  destruct (_prepare_features (x0 :: X)) as [features|e] eqn:Hf; [|discriminate].
  exists features. split; [reflexivity|].
  split; [exact (length_prepare_features _ _ Hf)|].
  cbn [_prepare_features] in Hf. injection Hf as <-.
  split.
  - reflexivity.
  - intros i prev cur Hprev Hcur. cbn [zip_with tail].
    change (X !! i = Some cur) in Hcur.
    match goal with
    | |- (_ :: ?l) !! S i = _ => change (l !! i = Some (feature_row prev cur))
    end.
    rewrite !lookup_zip_with, Hcur, Hprev. cbn [mbind option_bind]. reflexivity.
Qed.

(** X5. [_prepare_features] raises [IndexError] on the empty series and
    returns one row for each point of any other: the first row holds the
    first value, its difference with itself and the rate 0; the row of
    any later point holds its value, its difference with the point
    before and that difference divided by the point before, or 0 when
    the point before equals 0. On a series of numbers, in exact
    arithmetic, the first difference is 0. *)
Theorem prepare_features_spec :
  (forall `{Float F},
     (exists msg, _prepare_features (F:=F) [] = Raises (IndexError msg)) /\
     forall (x0 : F) (X : list F),
       exists features,
         _prepare_features (x0 :: X) = Returns features /\
         length features = S (length X) /\
         features !! 0%nat = Some (x0, fsub x0 x0, of_int 0) /\
         (forall (i : nat) prev cur,
            (x0 :: X) !! i = Some prev -> (x0 :: X) !! S i = Some cur ->
            features !! S i = Some (feature_row prev cur))) /\
  (forall (x0 : Exact.t) (X : list Exact.t),
     is_nan x0 = false ->
     exists features rows,
       _prepare_features (x0 :: X) = Returns features /\
       features = (x0, of_int 0, of_int 0) :: rows).
Proof.
  split.
  - intros F HF. split; [now eexists | apply prepare_features_rows].
  - intros x0 X [q Hq]%numeric_is_num. cbn [_prepare_features zip_with tail zip].
    eexists _, _. split; [reflexivity|].
    now rewrite (exact_sub_self x0 q x0 Hq Hq).
Qed.

Lemma prepare_features_spec_witness :
  exists features rows,
    _prepare_features [Exact.Num 4; Exact.Num 6; Exact.Num 0; Exact.Num 3]
    = Returns features /\
    features = (Exact.Num 4, of_int 0, of_int 0) :: rows.
Proof. apply (proj2 prepare_features_spec). reflexivity. Defined.

(** ** Local outlier factor on short series *)

Lemma lof_fit_predict `{Float F} (ext : Externals F) (contamination : F) (n : Z)
    (x0 : F) (X : list F) :
  let self := LOFDetector.__init__ contamination n in
  let k := Z.min (Z.min n 20) (len X) in
  exists features,
    _prepare_features (x0 :: X) = Returns features /\
    LOFDetector.fit_predict ext self (x0 :: X)
    = if k <? 2 then Returns (np.zeros_bool (S (length X)), np.zeros (S (length X)))
      else LocalOutlierFactor_fit_predict ext k contamination features.
Proof.
  intros self k. eexists. split; [reflexivity|].
  unfold LOFDetector.fit_predict. cbn [_prepare_features mbind outcome_bind].
  subst self k. cbn [LOFDetector.__init__ LOFDetector.n_neighbors LOFDetector.contamination].
  replace (len (x0 :: X) - 1) with (len X) by (unfold len; cbn [length]; lia).
  reflexivity.
Qed.

Lemma lof_short_series `{Float F} (ext : Externals F) (contamination : F) (n : Z)
    (X : list F) :
  X <> [] -> n < 2 \/ len X <= 2 ->
  LOFDetector.fit_predict ext (LOFDetector.__init__ contamination n) X
  = Returns (repeat false (length X), repeat (of_int 0) (length X)).
Proof.
  intros Hne Hshort. destruct X as [|x0 X]; [congruence|].
  destruct (lof_fit_predict ext contamination n x0 X) as (features & _ & ->).
  unfold len in Hshort. cbn [length] in Hshort.
  destruct (Z.ltb_spec (Z.min (Z.min n 20) (len X)) 2) as [_|Hk]; [reflexivity|].
  unfold len in Hk. lia.
Qed.

(** X6. [LOFDetector.fit_predict] raises [IndexError] on the empty
    series; on a series of one or two points, and whenever the detector
    was built for fewer than 2 neighbours, it returns all normal with
    scores 0 and never calls scikit-learn; otherwise it calls
    scikit-learn on the prepared features with a number of neighbours
    between 2 and 20 and below the number of points. *)
Theorem lof_neighbors `{Float F} (ext : Externals F) (contamination : F) (n : Z)
    (X : list F) :
  let self := LOFDetector.__init__ contamination n in
  (X = [] -> exists msg, LOFDetector.fit_predict ext self X = Raises (IndexError msg)) /\
  (X <> [] -> n < 2 \/ len X <= 2 ->
   LOFDetector.fit_predict ext self X
   = Returns (repeat false (length X), repeat (of_int 0) (length X))) /\
  (2 <= n -> 3 <= len X ->
   exists k features,
     2 <= k <= 20 /\ k < len X /\ k = Z.min n (Z.min 20 (len X - 1)) /\
     _prepare_features X = Returns features /\
     length features = length X /\
     LOFDetector.fit_predict ext self X
     = LocalOutlierFactor_fit_predict ext k contamination features).
Proof.
  intros self. subst self. split; [|split].
  - intros ->. now eexists.
  - apply lof_short_series.
  - intros Hn Hlen. destruct X as [|x0 X]; [unfold len in Hlen; cbn in Hlen; lia|].
    destruct (lof_fit_predict ext contamination n x0 X) as (features & Hf & ->).
    unfold len in Hlen. cbn [length] in Hlen.
    destruct (Z.ltb_spec (Z.min (Z.min n 20) (len X)) 2) as [Hk|Hk];
      [unfold len in Hk; lia|].
    exists (Z.min (Z.min n 20) (len X)), features.
    unfold len in *. cbn [length].
    repeat split; try lia; [exact Hf | exact (length_prepare_features _ _ Hf)].
Qed.

Lemma lof_neighbors_witness :
  exists k features,
    2 <= k <= 20 /\ k < 4 /\ k = 3 /\
    _prepare_features [1%float; 2%float; 9%float; 2%float] = Returns features /\
    length features = 4%nat /\
    LOFDetector.fit_predict failing_externals (LOFDetector.__init__ 0.01%float 20)
      [1%float; 2%float; 9%float; 2%float]
    = LocalOutlierFactor_fit_predict failing_externals k 0.01%float features.
Proof.
  apply (proj2 (proj2 (lof_neighbors failing_externals 0.01%float 20
                         [1%float; 2%float; 9%float; 2%float]))).
  - lia.
  - unfold len. cbn. lia.
Defined.

(** ** Methods of the engine that never reach their model *)

Lemma detect_all_normal `{Float F} settings ext clock timestamps (values : list F)
    method sensitivity :
  values <> [] ->
  method ∈ method_names ->
  (exists e,
     selected_scorer settings ext method values
       (get_contamination_by_sensitivity settings sensitivity) = Raises e) \/
  selected_scorer settings ext method values
    (get_contamination_by_sensitivity settings sensitivity)
  = Returns (repeat false (length values), repeat (of_int 0) (length values)) ->
  let r := detect settings ext clock timestamps values method sensitivity in
  Result.method r = method /\ all_normal (length values) r.
Proof.
  intros Hne Hm Hs r.
  destruct (detect_nonempty settings ext clock timestamps values method sensitivity Hne)
    as (Hr & Hmethod & Hcount).
  fold r in Hr, Hmethod, Hcount.
  destruct (decide (method ∈ method_names)) as [_|Hn]; [|contradiction].
  split; [exact Hmethod|].
  assert (E : (Result.anomalies r, Result.scores r)
              = (repeat false (length values), repeat (of_int 0) (length values))).
  { rewrite Hr. destruct Hs as [[err ->] | ->]; reflexivity. }
  injection E as Ea Es. unfold all_normal. rewrite Hcount, Ea, Es.
  repeat split. rewrite sum_bool_count. apply count_true_zeros.
Qed.

(** X7. [detect] with the method [prophet] returns every point normal
    with score 0, whatever the series and whatever is installed: the
    class [ProphetDetector] has no [fit_predict], the call raises
    [AttributeError], and [detect] turns any exception into the
    all-normal result. The result still names the method [prophet]. *)
Theorem detect_prophet_all_normal `{Float F} settings ext clock timestamps
    (values : list F) sensitivity :
  let r := detect settings ext clock timestamps values "prophet" sensitivity in
  all_normal (length values) r /\
  (values <> [] -> Result.method r = "prophet"%string) /\
  (forall contamination,
     exists msg, _detect_prophet ext values contamination = Raises (AttributeError msg)).
Proof.
  intros r. split; [|split].
  - destruct values as [|v values]; [repeat split|].
    apply detect_all_normal; [discriminate | unfold method_names; rewrite !elem_of_cons; auto 10 |].
    left. now eexists.
  - intros Hne. apply detect_all_normal; [exact Hne | unfold method_names; rewrite !elem_of_cons; auto 10 |].
    left. now eexists.
  - intros c. now eexists.
Qed.

Lemma detect_prophet_all_normal_witness :
  Result.method
    (detect (F:=float) default_settings failing_externals (0%float, 1%float)
       [0; 60000000] [50%float; 200%float] "prophet" "medium")
  = "prophet"%string.
Proof.
  apply (detect_prophet_all_normal default_settings failing_externals (0%float, 1%float)
           [0; 60000000] [50%float; 200%float] "medium").
  discriminate.
Defined.

(** X8. [detect] with the method [lof] on a series of one or two points
    returns every point normal with score 0, whatever scikit-learn would
    answer. *)
Theorem detect_lof_short_series `{Float F} settings ext clock timestamps
    (values : list F) sensitivity :
  1 <= len values <= 2 ->
  let r := detect settings ext clock timestamps values "lof" sensitivity in
  Result.method r = "lof"%string /\ all_normal (length values) r.
Proof.
  intros Hlen.
  assert (Hne : values <> []).
  { destruct values; [unfold len in Hlen; cbn in Hlen; lia | discriminate]. }
  apply detect_all_normal; [exact Hne | unfold method_names; rewrite !elem_of_cons; auto 10 |].
  right.
  apply (lof_short_series ext _ 20 values Hne). lia.
Qed.

Lemma detect_lof_short_series_witness :
  all_normal 2
    (detect (F:=float) default_settings failing_externals (0%float, 1%float)
       [0; 60000000] [50%float; 200%float] "lof" "medium").
Proof.
  apply (detect_lof_short_series default_settings failing_externals (0%float, 1%float)
           [0; 60000000] [50%float; 200%float] "medium").
  unfold len. cbn. lia.
Defined.

(** X9. Where dtaianomaly is not installed, [detect] with the method
    [dtai-auto] returns the flags, the scores and the count of the
    isolation forest under the name [dtai-auto]; where it is installed,
    the scorer is the matrix profile of dtaianomaly. *)
Theorem detect_dtai_auto_fallback `{Float F} settings ext clock timestamps
    (values : list F) sensitivity :
  let r := detect settings ext clock timestamps values "dtai-auto" sensitivity in
  let r' := detect settings ext clock timestamps values "isolation-forest" sensitivity in
  (DTAI_AVAILABLE ext = false ->
   Result.anomalies r = Result.anomalies r' /\
   Result.scores r = Result.scores r' /\
   Result.anomaly_count r = Result.anomaly_count r' /\
   (values <> [] ->
    Result.method r = "dtai-auto"%string /\
    Result.method r' = "isolation-forest"%string)) /\
  (DTAI_AVAILABLE ext = true ->
   forall contamination,
     _detect_dtai_auto ext values contamination
     = DTAIDetector_fit_predict ext contamination values).
Proof.
  intros r r'. split.
  - intros Hd. subst r r'. unfold detect.
    destruct (len values =? 0) eqn:Hlen.
    { do 3 (split; [reflexivity|]). intros Hne. exfalso. apply Hne.
      apply Z.eqb_eq in Hlen. destruct values; [reflexivity | discriminate]. }
    change (methods settings ext !! "dtai-auto")
      with (Some (_detect_dtai_auto ext)).
    change (methods settings ext !! "isolation-forest")
      with (Some (_detect_isolation_forest ext)).
    cbv iota beta.
    change (methods settings ext !! "dtai-auto")
      with (Some (_detect_dtai_auto ext)).
    change (methods settings ext !! "isolation-forest")
      with (Some (_detect_isolation_forest ext)).
    unfold _detect_dtai_auto. rewrite Hd. cbn [negb].
    destruct (try_except _ _) as [anomalies scores]. cbn. repeat split.
  - intros Hd c. unfold _detect_dtai_auto. now rewrite Hd.
Qed.

Lemma detect_dtai_auto_fallback_witness :
  Result.method
    (detect (F:=float) default_settings failing_externals (0%float, 1%float)
       [0; 60000000] [50%float; 200%float] "dtai-auto" "medium")
  = "dtai-auto"%string.
Proof.
  apply (proj1 (detect_dtai_auto_fallback default_settings failing_externals
                  (0%float, 1%float) [0; 60000000] [50%float; 200%float] "medium")).
  - reflexivity.
  - discriminate.
Defined.

(** ** Event grouper: events and runs of flagged points *)

Lemma consecutive_snoc (l : list Z) (x t1 t2 : Z) :
  consecutive (l ++ [x]) t1 t2 ->
  consecutive l t1 t2 \/ (last l = Some t1 /\ t2 = x).
Proof.
  intros (i & H1 & H2).
  destruct (Nat.lt_ge_cases (S i) (length l)) as [Hi|Hi].
  - left. exists i. rewrite !lookup_app_l in * by lia. now split.
  - right. pose proof (lookup_lt_Some _ _ _ H2) as Hlt.
    rewrite length_app in Hlt. cbn [length] in Hlt.
    assert (E : S i = length l) by lia.
    rewrite E, list_lookup_middle in H2 by reflexivity.
    injection H2 as <-. split; [|reflexivity].
    rewrite lookup_app_l in H1 by lia.
    rewrite last_lookup. rewrite <- E. exact H1.
Qed.

Lemma last_map_cons {A B} (f : A -> B) (q : A) (qs : list A) :
  last (map f (q :: qs)) = Some (f (List.last qs q)).
Proof.
  destruct qs as [|x qs _] using rev_ind; [reflexivity|].
  rewrite last_last. change (q :: qs ++ [x]) with ((q :: qs) ++ [x]).
  rewrite map_app. cbn [map]. apply last_snoc.
Qed.

Lemma event_of_run_snoc `{Float F} (metric_name : string)
    (q : Z * bool * F * F) (qs : list (Z * bool * F * F)) (p : Z * bool * F * F) :
  event_of_run metric_name (q, qs ++ [p])
  = extend_event (event_of_run metric_name (q, qs)) (instant p) (score_of p) (value_of p).
Proof. unfold event_of_run. cbn [fst snd]. now rewrite fold_left_app. Qed.

(** The fields of the event of a run. *)
Lemma event_of_run_fields `{Float F} (metric_name : string)
    (r : (Z * bool * F * F) * list (Z * bool * F * F)) :
  let e := event_of_run metric_name r in
  Event.start_time e = instant (fst r) /\
  Event.end_time e = instant (List.last (snd r) (fst r)) /\
  Event.metric e = metric_name /\
  Event.max_score e = fold_left py_max (map score_of (snd r)) (score_of (fst r)) /\
  Event.anomaly_points e = len (run_points r) /\
  Event.timestamps e = map instant (run_points r) /\
  Event.values e = map value_of (run_points r).
Proof.
  destruct r as [q qs]. cbn [fst snd]. unfold run_points. cbn [fst snd].
  induction qs as [|p qs IH] using rev_ind.
  - cbn. repeat split.
  - rewrite event_of_run_snoc.
    destruct (extend_event_fields (event_of_run metric_name (q, qs))
                (instant p) (score_of p) (value_of p))
      as (Hs & He & Hm & Hx & Hn & Ht & Hv).
    destruct IH as (IHs & IHe & IHm & IHx & IHn & IHt & IHv).
    cbv zeta. rewrite Hs, He, Hm, Hx, Hn, Ht, Hv, IHs, IHm, IHx, IHn, IHt, IHv.
    rewrite last_last, map_app, fold_left_app.
    change (q :: qs ++ [p]) with ((q :: qs) ++ [p]). rewrite !map_app.
    unfold len. rewrite length_app. cbn [length map fold_left].
    repeat split. lia.
Qed.

Section Runs.
Context `{Float F} (settings : Settings F) (metric_name : string).

Local Abbreviation point := (Z * bool * F * F)%type (only parsing).
Local Abbreviation run := ((Z * bool * F * F) * list (Z * bool * F * F))%type (only parsing).

(** The scan and the runs proceed together. *)
Lemma fold_step_runs (points : list point) (events : list (Event.t F)) (open : option run) :
  close (fold_left (step settings metric_name) points
           (events, option_map (event_of_run metric_name) open))
  = events ++ map (event_of_run metric_name) (runs_from settings open points).
Proof.
  revert events open.
  induction points as [|[[[ts a] s] v] points IH]; intros events open.
  - destruct open; cbn; [reflexivity | now rewrite app_nil_r].
  - cbn [fold_left runs_from]. unfold flagged. cbn [fst snd].
    destruct a; cbn [step negb].
    + destruct open as [[q qs]|]; cbn [option_map].
      * destruct (event_of_run_fields metric_name (q, qs)) as (_ & He & _). cbv zeta in He.
        rewrite He. cbn [fst snd]. unfold near, instant at 2. cbn [fst snd].
        destruct (fleb _ _).
        -- rewrite <- (IH events (Some (q, qs ++ [(ts, true, s, v)]))).
           cbn [option_map]. now rewrite event_of_run_snoc.
        -- etrans; [apply (IH (events ++ [event_of_run metric_name (q, qs)])
                             (Some ((ts, true, s, v), [])))|].
           cbn [map]. now rewrite <- app_assoc.
      * apply (IH events (Some ((ts, true, s, v), []))).
    + destruct open as [r|]; cbn [option_map].
      * etrans; [apply (IH (events ++ [event_of_run metric_name r]) None)|].
        cbn [map]. now rewrite <- app_assoc.
      * apply (IH events None).
Qed.

Lemma scan_runs (points : list point) :
  scan settings metric_name points
  = map (event_of_run metric_name) (runs settings points).
Proof. rewrite scan_fold. apply (fold_step_runs points [] None). Qed.

(** The runs hold the flagged points, in their order. *)
Lemma runs_from_concat (points : list point) (open : option run) :
  concat (map run_points (runs_from settings open points))
  = match open with Some r => run_points r | None => [] end
    ++ List.filter flagged points.
Proof.
  revert open. induction points as [|p points IH]; intros open.
  - destruct open; cbn; now rewrite ?app_nil_r.
  - cbn [runs_from List.filter]. destruct (flagged p).
    + destruct open as [[q qs]|].
      * destruct (near _ _ _).
        -- rewrite IH. unfold run_points. cbn [fst snd].
           now rewrite <- !app_comm_cons, <- app_assoc.
        -- cbn [map concat]. rewrite IH. reflexivity.
      * rewrite IH. reflexivity.
    + destruct open as [r|].
      * cbn [map concat]. rewrite IH. reflexivity.
      * apply IH.
Qed.

Lemma runs_concat (points : list point) :
  concat (map run_points (runs settings points)) = List.filter flagged points.
Proof. apply (runs_from_concat points None). Qed.

(** In a run every point is near the one before. *)
Lemma runs_from_near (points : list point) (open : option run) :
  let chained (r : run) :=
    forall t1 t2, consecutive (map instant (run_points r)) t1 t2 ->
                  near settings t1 t2 = true in
  (forall r, open = Some r -> chained r) ->
  Forall chained (runs_from settings open points).
Proof.
  intros chained. revert open.
  assert (Hone : forall p : point, chained (p, [])).
  { intros p t1 t2 (i & _ & Hi). destruct i; discriminate. }
  induction points as [|p points IH]; intros open Hopen.
  - destruct open as [r|]; repeat constructor. now apply Hopen.
  - cbn [runs_from]. destruct (flagged p).
    + destruct open as [[q qs]|].
      * destruct (near _ _ _) eqn:Hnear.
        -- apply IH. intros r [= <-] t1 t2 Hc.
           unfold run_points in Hc. cbn [fst snd] in Hc.
           change (q :: qs ++ [p]) with ((q :: qs) ++ [p]) in Hc.
           rewrite map_app in Hc. cbn [map] in Hc.
           apply consecutive_snoc in Hc as [Hc | [Hl ->]].
           ++ now apply (Hopen (q, qs) eq_refl).
           ++ change (instant q :: map instant qs) with (map instant (q :: qs)) in Hl.
              rewrite last_map_cons in Hl. injection Hl as <-. exact Hnear.
        -- constructor; [now apply Hopen | apply IH; intros r [= <-]; apply Hone].
      * apply IH. intros r [= <-]. apply Hone.
    + destruct open as [r|].
      * constructor; [now apply Hopen | apply IH; discriminate].
      * apply IH. discriminate.
Qed.

End Runs.

Lemma fold_right_add_len {A} (ls : list (list A)) :
  fold_right Z.add 0 (map len ls) = len (concat ls).
Proof.
  induction ls as [|l ls IH]; [reflexivity|].
  cbn [map fold_right concat]. rewrite IH. unfold len. rewrite length_app. lia.
Qed.

Lemma length_concat_nonempty {A B} (f : A -> list B) (ls : list A) :
  (forall x, f x <> []) -> (length ls <= length (concat (map f ls)))%nat.
Proof.
  intros Hf. induction ls as [|l ls IH]; [reflexivity|].
  cbn [map concat length]. rewrite length_app.
  specialize (Hf l). destruct (f l); [congruence | cbn [length]; lia].
Qed.

(** X10. The scan is the split of the flagged points in runs followed
    by the making of one event from each run: the runs hold the flagged
    points of the series in their order, a run ends at a point that is
    not flagged or before a flagged point that is not near the last one,
    and the event of a run starts at its first point, ends at its last,
    counts its points, lists their instants and values, and takes as
    [max_score] the running maximum of their scores. *)
Theorem scan_events_are_runs `{Float F} (settings : Settings F) (metric_name : string)
    (points : list (Z * bool * F * F)) :
  scan settings metric_name points
  = map (event_of_run metric_name) (runs settings points) /\
  concat (map run_points (runs settings points)) = List.filter flagged points /\
  Forall (fun r =>
            let e := event_of_run metric_name r in
            Event.start_time e = instant (fst r) /\
            Event.end_time e = instant (List.last (snd r) (fst r)) /\
            Event.metric e = metric_name /\
            Event.max_score e = fold_left py_max (map score_of (snd r)) (score_of (fst r)) /\
            Event.anomaly_points e = len (run_points r) /\
            Event.timestamps e = map instant (run_points r) /\
            Event.values e = map value_of (run_points r))
    (runs settings points).
Proof.
  split; [apply scan_runs | split; [apply runs_concat|]].
  apply List.Forall_forall. intros r _. apply event_of_run_fields.
Qed.

(** X11. The events of a scan hold every flagged point once and no
    other: their timestamps, one event after the other, are the instants
    of the flagged points in the order of the series, their values are
    the values of those points, their [anomaly_points] add up to the
    number of flagged points, and there are at most as many events as
    flagged points. *)
Theorem scan_conserves_flagged_points `{Float F} (settings : Settings F)
    (metric_name : string) (points : list (Z * bool * F * F)) :
  let events := scan settings metric_name points in
  let flagged_points := List.filter flagged points in
  concat (map Event.timestamps events) = map instant flagged_points /\
  concat (map Event.values events) = map value_of flagged_points /\
  total_anomaly_points events = len flagged_points /\
  (length events <= length flagged_points)%nat.
Proof.
  intros events flagged_points. subst events flagged_points.
  rewrite scan_runs, <- (runs_concat settings). unfold total_anomaly_points.
  rewrite !List.map_map, !concat_map, !List.map_map.
  repeat split.
  - f_equal. apply List.map_ext. intros r. apply event_of_run_fields.
  - f_equal. apply List.map_ext. intros r. apply event_of_run_fields.
  - rewrite <- fold_right_add_len, List.map_map. f_equal.
    apply List.map_ext. intros r. apply event_of_run_fields.
  - rewrite length_map. apply length_concat_nonempty. intros r. discriminate.
Qed.

Lemma scan_event_shape `{Float F} (settings : Settings F) (metric_name : string)
    (points : list (Z * bool * F * F)) :
  Forall (event_shape metric_name) (scan settings metric_name points).
Proof.
  rewrite scan_runs. apply List.Forall_map, List.Forall_forall. intros r _.
  destruct (event_of_run_fields metric_name r) as (Hs & He & Hm & _ & Hn & Ht & Hv).
  cbv zeta in *. unfold event_shape. rewrite Hs, He, Hm, Hn, Ht, Hv.
  destruct r as [q qs]. unfold run_points, len. cbn [fst snd].
  rewrite last_map_cons, !length_map. cbn [length map head].
  repeat split. lia.
Qed.

Lemma group_anomalies_Forall `{Float F} (settings : Settings F)
    timestamps anomalies (scores values : list F) metric_name
    (P : RankedEvent.t F -> Prop) :
  Forall (fun e => P (rank e))
    (scan settings metric_name (points_zip timestamps anomalies scores values)) ->
  Forall P (group_anomalies settings timestamps anomalies scores values metric_name).
Proof.
  intros HP. rewrite group_anomalies_sort.
  eapply Permutation_Forall; [symmetry; apply sort_reverse_perm|].
  unfold chronological_events. now apply List.Forall_map.
Qed.

(** X12. Every event [group_anomalies] returns carries the metric name
    it was called with, counts at least one point and as many as it
    lists timestamps and values, starts at the first of its timestamps
    and ends at the last, and has for duration the seconds from its
    start to its end. *)
Theorem group_anomalies_event_shape `{Float F} (settings : Settings F)
    timestamps anomalies (scores values : list F) metric_name :
  Forall (fun r =>
            event_shape metric_name (RankedEvent.event r) /\
            RankedEvent.duration_seconds r
            = total_seconds (Event.end_time (RankedEvent.event r)
                             - Event.start_time (RankedEvent.event r)) /\
            RankedEvent.priority r
            = _calculate_priority (Event.max_score (RankedEvent.event r))
                (Event.anomaly_points (RankedEvent.event r))
                (RankedEvent.duration_seconds r))
    (group_anomalies settings timestamps anomalies scores values metric_name).
Proof.
  apply group_anomalies_Forall.
  eapply Forall_impl; [apply scan_event_shape|].
  intros e He. cbn. split; [exact He | split; reflexivity].
Qed.

(** ** Event grouper: the maximum score *)

Lemma py_max_cases `{Float F} (a b : F) : py_max a b = a \/ py_max a b = b.
Proof. unfold py_max. destruct (fltb a b); auto. Qed.

Lemma py_max_upper `{FloatOrder F} (a b : F) :
  is_nan a = false -> is_nan b = false ->
  fleb a (py_max a b) = true /\ fleb b (py_max a b) = true.
Proof.
  intros Ha Hb. unfold py_max. destruct (fltb a b) eqn:E.
  - split; [now apply ltb_leb | now apply leb_refl].
  - split; [now apply leb_refl | now apply leb_total].
Qed.

Lemma fold_py_max `{FloatOrder F} (l : list F) (init : F) :
  is_nan init = false ->
  Forall (fun x => is_nan x = false) l ->
  let m := fold_left py_max l init in
  m ∈ init :: l /\ Forall (fun x => fleb x m = true) (init :: l).
Proof.
  revert init. induction l as [|x l IH]; intros init Hinit Hl; cbn [fold_left].
  - split; [left | repeat constructor; now apply leb_refl].
  - apply Forall_cons_1 in Hl as [Hx Hl].
    assert (Hm : is_nan (py_max init x) = false).
    { destruct (py_max_cases init x) as [-> | ->]; assumption. }
    destruct (IH (py_max init x) Hm Hl) as [Hin Hall].
    apply Forall_cons_1 in Hall as [Hmax Hall].
    destruct (py_max_upper init x Hinit Hx) as [Hi Hxm].
    split.
    + apply elem_of_cons in Hin as [-> | Hin].
      * destruct (py_max_cases init x) as [-> | ->]; [left | right; left].
      * right; now right.
    + constructor; [eapply leb_trans; eassumption|].
      constructor; [eapply leb_trans; eassumption | exact Hall].
Qed.

Lemma Forall2_map_l {A B} (P : B -> A -> Prop) (f : A -> B) (l : list A) :
  Forall (fun x => P (f x) x) l -> Forall2 P (map f l) l.
Proof. induction 1; cbn; constructor; auto. Qed.

Lemma runs_flagged `{Float F} (settings : Settings F) (points : list (Z * bool * F * F)) r p :
  r ∈ runs settings points -> p ∈ run_points r -> p ∈ points /\ flagged p = true.
Proof.
  intros Hr Hp.
  assert (Hin : p ∈ List.filter flagged points).
  { rewrite <- (runs_concat settings). apply list_elem_of_In, in_concat.
    exists (run_points r). split; [|now apply list_elem_of_In].
    apply in_map. now apply list_elem_of_In. }
  apply list_elem_of_In, filter_In in Hin as [Hin Hf].
  split; [now apply list_elem_of_In | exact Hf].
Qed.

(** X13. When the scores of the flagged points are numbers, the
    [max_score] of every event is the largest score among its points:
    it is the score of one of them and no score of the event exceeds it.
    In any arithmetic whose comparisons are those of floats. *)
Theorem max_score_is_maximum `{FloatOrder F} (settings : Settings F) (metric_name : string)
    (points : list (Z * bool * F * F)) :
  Forall (fun p => flagged p = true -> is_nan (score_of p) = false) points ->
  Forall2 (fun e r =>
             Event.timestamps e = map instant (run_points r) /\
             Event.max_score e ∈ map score_of (run_points r) /\
             Forall (fun p => fleb (score_of p) (Event.max_score e) = true) (run_points r))
    (scan settings metric_name points) (runs settings points).
Proof.
  intros Hp. rewrite scan_runs. apply Forall2_map_l, List.Forall_forall.
  intros r Hr%list_elem_of_In.
  destruct (event_of_run_fields metric_name r) as (_ & _ & _ & Hx & _ & Ht & _).
  cbv zeta in *. rewrite Ht, Hx. split; [reflexivity|].
  assert (Hnum : Forall (fun x => is_nan x = false) (map score_of (run_points r))).
  { apply List.Forall_map, List.Forall_forall. intros p Hin%list_elem_of_In.
    destruct (runs_flagged settings points r p Hr Hin) as [Hin' Hf].
    exact (proj1 (List.Forall_forall _ _) Hp p (proj1 (list_elem_of_In _ _) Hin') Hf). }
  destruct r as [q qs]. unfold run_points in *. cbn [fst snd map] in *.
  apply Forall_cons_1 in Hnum as [Hq Hqs].
  destruct (fold_py_max (map score_of qs) (score_of q) Hq Hqs) as [Hin Hall].
  split; [exact Hin|].
  change (score_of q :: map score_of qs) with (map score_of (q :: qs)) in Hall.
  now apply List.Forall_map in Hall.
Qed.

Lemma max_score_is_maximum_witness :
  Forall2 (fun e r =>
             Event.timestamps e = map instant (run_points r) /\
             Event.max_score e ∈ map score_of (run_points r) /\
             Forall (fun p => fleb (score_of p) (Event.max_score e) = true) (run_points r))
    (scan (F:=float) default_settings "cpu"
       [(0, true, 0.5%float, 10%float); (60000000, true, 0.9%float, 20%float);
        (120000000, false, 0.1%float, 5%float); (180000000, true, 0.7%float, 30%float)])
    (runs default_settings
       [(0, true, 0.5%float, 10%float); (60000000, true, 0.9%float, 20%float);
        (120000000, false, 0.1%float, 5%float); (180000000, true, 0.7%float, 30%float)]).
Proof.
  apply (max_score_is_maximum (F:=float)).
  repeat constructor.
Defined.

(** ** Event grouper: the window inside an event *)

Lemma scan_near `{Float F} (settings : Settings F) (metric_name : string)
    (points : list (Z * bool * F * F)) :
  Forall (fun e => forall t1 t2,
            consecutive (Event.timestamps e) t1 t2 -> near settings t1 t2 = true)
    (scan settings metric_name points).
Proof.
  rewrite scan_runs. apply List.Forall_map.
  eapply Forall_impl; [apply (runs_from_near settings points None); discriminate|].
  intros r Hr t1 t2 Hc. cbv beta in Hr. apply Hr.
  destruct (event_of_run_fields metric_name r) as (_ & _ & _ & _ & _ & Ht & _).
  cbv zeta in Ht. now rewrite <- Ht.
Qed.

(** X14. Inside every event, two timestamps that follow each other
    pass the test of the grouping window; in exact arithmetic, in every
    event [group_anomalies] returns, they are at most
    [anomaly_grouping_window_seconds] apart. *)
Theorem events_within_window :
  (forall `{Float F} (settings : Settings F) (metric_name : string)
          (points : list (Z * bool * F * F)),
     Forall (fun e => forall t1 t2,
               consecutive (Event.timestamps e) t1 t2 -> near settings t1 t2 = true)
       (scan settings metric_name points)) /\
  (forall (settings : Settings Exact.t) timestamps anomalies
          (scores values : list Exact.t) metric_name,
     Forall (fun r => forall t1 t2,
               consecutive (Event.timestamps (RankedEvent.event r)) t1 t2 ->
               t2 - t1 <= anomaly_grouping_window_seconds settings * 1000000)
       (group_anomalies settings timestamps anomalies scores values metric_name)).
Proof.
  split.
  - intros. apply scan_near.
  - intros. apply group_anomalies_Forall.
    eapply Forall_impl; [apply scan_near|].
    intros e He t1 t2 Hc. cbn [rank RankedEvent.event] in Hc.
    apply exact_gap. now apply He.
Qed.

Lemma events_within_window_witness :
  near (F:=float) default_settings 0 60000000 = true.
Proof.
  pose proof (proj1 events_within_window float _ default_settings "cpu"
                [(0, true, 0.5%float, 10%float); (60000000, true, 0.9%float, 20%float)])
    as Hall.
  apply Forall_cons_1 in Hall as [He _].
  apply He. exists 0%nat. split; reflexivity.
Defined.

(** ** Event grouper: series in chronological order *)

Lemma fold_step_ordered `{Float F} (settings : Settings F) (metric_name : string)
    (points : list (Z * bool * F * F)) (events : list (Event.t F))
    (current_event : option (Event.t F)) :
  let ordered (e : Event.t F) := Event.start_time e <= Event.end_time e in
  StronglySorted Z.le (map instant points) ->
  Forall ordered events ->
  (forall e, current_event = Some e ->
             ordered e /\ Forall (fun p => Event.end_time e <= instant p) points) ->
  Forall ordered
    (close (fold_left (step settings metric_name) points (events, current_event))).
Proof.
  intros ordered. revert events current_event.
  assert (Hsnoc : forall events e, Forall ordered events -> ordered e ->
                                   Forall ordered (events ++ [e])).
  { intros events e Hevs He. apply Forall_app. split; [exact Hevs | now constructor]. }
  induction points as [|[[[ts a] s] v] points IH]; intros events cur Hsorted Hevs Hcur.
  - destruct cur as [e|]; cbn [fold_left close]; [|exact Hevs].
    apply Hsnoc; [exact Hevs | now apply Hcur].
  - cbn [map] in Hsorted. apply StronglySorted_inv in Hsorted as [Hsorted Hts].
    change (instant (ts, a, s, v)) with ts in Hts.
    rewrite List.Forall_map in Hts.
    assert (Hnew : forall e, Some (new_event metric_name ts s v) = Some e ->
                     ordered e /\ Forall (fun p => Event.end_time e <= instant p) points).
    { intros e [= <-]. split; [unfold ordered; cbn; lia | exact Hts]. }
    cbn [fold_left]. destruct a; cbn [step negb].
    + destruct cur as [e|]; [|now apply IH].
      destruct (Hcur e eq_refl) as [He Hall].
      apply Forall_cons_1 in Hall as [Hend _]. change (instant (ts, true, s, v)) with ts in Hend.
      destruct (fleb _ _).
      * apply IH; [exact Hsorted | exact Hevs |].
        intros e' [= <-].
        destruct (extend_event_fields e ts s v) as (Hs' & He' & _). cbv zeta in Hs', He'.
        unfold ordered. rewrite Hs', He'. split; [unfold ordered in He; lia | exact Hts].
      * apply IH; [exact Hsorted | now apply Hsnoc | exact Hnew].
    + destruct cur as [e|].
      * apply IH; [exact Hsorted | apply Hsnoc; [exact Hevs | now apply Hcur] | discriminate].
      * apply IH; [exact Hsorted | exact Hevs | discriminate].
Qed.

Lemma StronglySorted_firstn {A} (R : A -> A -> Prop) (k : nat) (l : list A) :
  StronglySorted R l -> StronglySorted R (firstn k l).
Proof.
  revert k. induction l as [|x l IH]; intros [|k] Hl; cbn [firstn]; try constructor.
  - apply IH. now apply StronglySorted_inv in Hl.
  - apply StronglySorted_inv in Hl as [_ Hx]. now apply Forall_take.
Qed.

Lemma points_zip_instants {F} (timestamps : list Z) (anomalies : list bool)
    (scores values : list F) :
  exists k, map instant (points_zip timestamps anomalies scores values) = firstn k timestamps.
Proof.
  revert anomalies scores values.
  induction timestamps as [|t timestamps IH]; intros anomalies scores values.
  - now exists 0%nat.
  - destruct anomalies as [|a anomalies]; [now exists 0%nat|].
    destruct scores as [|s scores]; [now exists 0%nat|].
    destruct values as [|v values]; [now exists 0%nat|].
    destruct (IH anomalies scores values) as [k Hk].
    exists (S k). unfold points_zip in *. cbn [zip_with map firstn]. now rewrite Hk.
Qed.

Lemma scan_ordered `{Float F} (settings : Settings F) (metric_name : string)
    timestamps anomalies (scores values : list F) :
  StronglySorted Z.le timestamps ->
  Forall (fun e => Event.start_time e <= Event.end_time e)
    (scan settings metric_name (points_zip timestamps anomalies scores values)).
Proof.
  intros Hsorted. rewrite scan_fold.
  apply fold_step_ordered; [|constructor|discriminate].
  destruct (points_zip_instants timestamps anomalies scores values) as [k ->].
  now apply StronglySorted_firstn.
Qed.

Lemma scan_max_score `{Float F} (settings : Settings F) (metric_name : string)
    (P : F -> Prop) timestamps anomalies (scores values : list F) :
  Forall P scores ->
  Forall (fun e => P (Event.max_score e))
    (scan settings metric_name (points_zip timestamps anomalies scores values)).
Proof.
  intros Hs. rewrite scan_fold.
  apply (fold_step_Forall settings metric_name _ (fun p => P (score_of p)));
    [| | |constructor|discriminate].
  - intros ts s v Hq. exact Hq.
  - intros e ts s v He Hq.
    destruct (extend_event_fields e ts s v) as (_ & _ & _ & Hx & _). cbv zeta in Hx.
    rewrite Hx. destruct (py_max_cases (Event.max_score e) s) as [-> | ->]; assumption.
  - eapply Forall_impl;
      [apply (points_zip_Forall (fun _ => True) P timestamps anomalies scores values);
       [apply List.Forall_forall; auto | exact Hs]|].
    intros p [_ Hp]. exact Hp.
Qed.

Lemma exact_unit_score_num (s : Exact.t) :
  unit_score s -> exists q, is_num s q /\ (0 <= q <= 1)%Q.
Proof.
  intros [H0 H1]. destruct s as [q|]; [|discriminate].
  exists q. split; [reflexivity|]. split.
  - now apply (exact_leb (of_int 0) (Exact.Num q) 0 q (is_num_of_int 0) (Qeq_refl q)).
  - now apply (exact_leb (Exact.Num q) (of_int 1) q 1 (Qeq_refl q) (is_num_of_int 1)).
Qed.

(** X15. On a series in chronological order no event [group_anomalies]
    returns ends before it starts; in exact arithmetic, when moreover
    the scores lie between 0 and 1, the duration of every event is a
    number that is not negative and its priority a number between 0
    and 1. *)
Theorem chronological_series_priorities :
  (forall `{Float F} (settings : Settings F) timestamps anomalies
          (scores values : list F) metric_name,
     StronglySorted Z.le timestamps ->
     Forall (fun r => Event.start_time (RankedEvent.event r)
                      <= Event.end_time (RankedEvent.event r))
       (group_anomalies settings timestamps anomalies scores values metric_name)) /\
  (forall (settings : Settings Exact.t) timestamps anomalies
          (scores values : list Exact.t) metric_name,
     StronglySorted Z.le timestamps ->
     Forall unit_score scores ->
     Forall (fun r => exists duration priority,
               RankedEvent.duration_seconds r = Exact.Num duration /\
               (0 <= duration)%Q /\
               RankedEvent.priority r = Exact.Num priority /\
               (0 <= priority <= 1)%Q)
       (group_anomalies settings timestamps anomalies scores values metric_name)).
Proof.
  split.
  - intros F HF settings timestamps anomalies scores values metric_name Hsorted.
    apply group_anomalies_Forall. cbn [rank RankedEvent.event].
    now apply scan_ordered.
  - intros settings timestamps anomalies scores values metric_name Hsorted Hscores.
    apply group_anomalies_Forall.
    pose proof (scan_ordered settings metric_name timestamps anomalies scores values Hsorted)
      as Hord.
    pose proof (scan_max_score settings metric_name unit_score
                  timestamps anomalies scores values Hscores) as Hmax.
    pose proof (scan_event_shape settings metric_name
                  (points_zip timestamps anomalies scores values)) as Hshape.
    eapply Forall_impl;
      [apply Forall_and; split; [exact Hord | apply Forall_and; split; [exact Hmax | exact Hshape]]|].
    cbv beta.
    intros e (He & Hx & Hs). destruct Hs as (_ & Hpoints & _).
    apply exact_unit_score_num in Hx as (q & Hq & Hq01).
    set (gap := Event.end_time e - Event.start_time e).
    assert (Hd : is_num (total_seconds (F:=Exact.t) gap) (inject_Z gap / 1000000)).
    { apply (is_num_truediv gap 1000000). discriminate. }
    assert (Hd0 : (0 <= inject_Z gap / 1000000)%Q).
    { apply Qle_shift_div_l; [reflexivity|].
      assert (E : (0 * 1000000 == inject_Z 0)%Q) by reflexivity.
      rewrite E, <- Zle_Qle. subst gap. lia. }
    destruct (is_num_inv _ _ Hd) as (d & Hd' & Hdq).
    exists d. eexists. cbn [rank RankedEvent.duration_seconds RankedEvent.priority].
    fold gap. split; [exact Hd'|]. split; [now rewrite Hdq|]. split.
    + apply (calculate_priority_exact _ _ q (inject_Z gap / 1000000)); assumption.
    + rewrite Qred_correct. apply priority_spec_range; [exact Hq01 | lia | exact Hd0].
Qed.

Lemma chronological_series_priorities_witness :
  Forall (fun r => exists duration priority,
            RankedEvent.duration_seconds r = Exact.Num duration /\
            (0 <= duration)%Q /\
            RankedEvent.priority r = Exact.Num priority /\
            (0 <= priority <= 1)%Q)
    (group_anomalies (F:=Exact.t) default_settings
       [0; 60000000; 400000000; 1000000000]
       [true; true; false; true]
       [dec 5 1; dec 9 1; dec 1 1; dec 7 1]
       [of_int 10; of_int 20; of_int 5; of_int 30] "cpu").
Proof.
  apply (proj2 chronological_series_priorities).
  - repeat constructor; lia.
  - repeat constructor.
Defined.

(** ** Event grouper: points that are not flagged *)

Lemma fold_step_from_closed `{Float F} (settings : Settings F) (metric_name : string)
    (points : list (Z * bool * F * F)) (events : list (Event.t F)) :
  close (fold_left (step settings metric_name) points (events, None))
  = events ++ scan settings metric_name points.
Proof. rewrite scan_runs. apply (fold_step_runs settings metric_name points events None). Qed.

(** X16. A point that is not flagged splits the scan: the events of
    the series are those of the points before it followed by those of
    the points after it, and no event holds points of both sides. *)
Theorem scan_split_at_normal_point `{Float F} (settings : Settings F)
    (metric_name : string) (before after : list (Z * bool * F * F))
    (p : Z * bool * F * F) :
  flagged p = false ->
  scan settings metric_name (before ++ p :: after)
  = scan settings metric_name before ++ scan settings metric_name after.
Proof.
  intros Hp. rewrite (scan_fold settings metric_name (before ++ p :: after)).
  rewrite fold_left_app. cbn [fold_left].
  rewrite (scan_fold settings metric_name before).
  destruct (fold_left (step settings metric_name) before ([], None)) as [events cur].
  destruct p as [[[ts a] s] v]. unfold flagged in Hp. cbn [fst snd] in Hp. subst a.
  cbn [step negb]. destruct cur as [e|]; cbn [close]; apply fold_step_from_closed.
Qed.

Lemma scan_split_at_normal_point_witness :
  scan (F:=float) default_settings "cpu"
    ([(0, true, 0.5%float, 10%float)] ++ (60000000, false, 0.1%float, 5%float)
       :: [(120000000, true, 0.7%float, 30%float)])
  = scan default_settings "cpu" [(0, true, 0.5%float, 10%float)]
    ++ scan default_settings "cpu" [(120000000, true, 0.7%float, 30%float)].
Proof. apply scan_split_at_normal_point. reflexivity. Defined.

(** X17. [group_anomalies] returns no event exactly when no point of
    [zip(timestamps, anomalies, scores, values)] is flagged, and never
    more events than there are flagged points. *)
Theorem group_anomalies_count `{Float F} (settings : Settings F)
    timestamps anomalies (scores values : list F) metric_name :
  let events := group_anomalies settings timestamps anomalies scores values metric_name in
  let flagged_points :=
    List.filter flagged (points_zip timestamps anomalies scores values) in
  (events = [] <-> flagged_points = []) /\
  (length events <= length flagged_points)%nat.
Proof.
  intros events flagged_points.
  assert (Hlen : length events
                 = length (runs settings (points_zip timestamps anomalies scores values))).
  { subst events. rewrite group_anomalies_sort, length_sort_reverse.
    unfold chronological_events. now rewrite length_map, scan_runs, length_map. }
  assert (Hconcat : concat (map run_points
                              (runs settings (points_zip timestamps anomalies scores values)))
                    = flagged_points) by apply runs_concat.
  assert (Hle : (length events <= length flagged_points)%nat).
  { rewrite Hlen, <- Hconcat. apply length_concat_nonempty. intros r. discriminate. }
  split; [|exact Hle]. split.
  - intros E. rewrite E in Hlen. cbn [length] in Hlen.
    destruct (runs settings _); [|discriminate]. now rewrite <- Hconcat.
  - intros E. rewrite E in Hle. cbn [length] in Hle.
    destruct events; [reflexivity | cbn [length] in Hle; lia].
Qed.

(** ** What the API makes of a detection *)

Lemma detect_count `{Float F} settings ext clock timestamps (values : list F)
    method sensitivity :
  externals_keep_shape ext ->
  0 <= Result.anomaly_count (detect settings ext clock timestamps values method sensitivity)
    <= len values.
Proof.
  intros Hext. set (r := detect _ _ _ _ _ _ _).
  destruct values as [|v values].
  { subst r.
    change (detect settings ext clock timestamps [] method sensitivity)
      with (_empty_result (F:=F) 0).
    unfold len. cbn. lia. }
  destruct (detect_nonempty settings ext clock timestamps (v :: values) method
              sensitivity) as (Hr & _ & Hc); [discriminate|].
  fold r in Hr, Hc. rewrite Hc, sum_bool_count.
  assert (Hlen : length (Result.anomalies r) = length (v :: values)).
  { destruct (selected_scorer _ _ _ _ _) as [[a s]|e] eqn:Hs; cbn [try_except] in Hr.
    - apply (methods_keep_shape settings ext method Hext) in Hs.
      injection Hr as Ha _. rewrite Ha. tauto.
    - injection Hr as Ha _. rewrite Ha. apply length_zeros_bool. }
  unfold count_true, len. rewrite <- Hlen.
  pose proof (count_occ_bound Bool.bool_dec true (Result.anomalies r)). lia.
Qed.

Lemma anomaly_percentage_range (anomaly_count total_points : Z) :
  0 <= anomaly_count <= total_points ->
  exists q, anomaly_percentage (F:=Exact.t) anomaly_count total_points = Exact.Num q /\
            (0 <= q <= 100)%Q.
Proof.
  intros Hc. unfold anomaly_percentage.
  destruct (Z.ltb_spec 0 total_points) as [Ht|Ht].
  - set (a := (inject_Z anomaly_count / inject_Z total_points * 100)%Q).
    assert (Ha : is_num (fmul (truediv (F:=Exact.t) anomaly_count total_points) (of_int 100)) a).
    { apply is_num_mul; [apply is_num_truediv; lia | apply is_num_of_int]. }
    assert (Hpos : (0 < inject_Z total_points)%Q).
    { change 0%Q with (inject_Z 0). rewrite <- Zlt_Qlt. lia. }
    assert (Hfrac : (0 <= inject_Z anomaly_count / inject_Z total_points <= 1)%Q).
    { split.
      - apply Qle_shift_div_l; [exact Hpos|].
        assert (E : (0 * inject_Z total_points == inject_Z 0)%Q) by ring.
        rewrite E, <- Zle_Qle. lia.
      - apply Qle_shift_div_r; [exact Hpos|].
        rewrite Qmult_1_l, <- Zle_Qle. lia. }
    rewrite (is_num_round 2 _ a Ha). eexists. split; [reflexivity|].
    rewrite Qred_correct.
    change (inject_Z (10 ^ Z.of_nat 2)) with 100%Q.
    destruct (round_half_even_range (a * 100) 10000) as [Hlo Hhi].
    { subst a. nra. }
    { subst a. change (inject_Z 10000) with 10000%Q. nra. }
    rewrite Zle_Qle in Hlo, Hhi. change (inject_Z 0) with 0%Q in Hlo.
    change (inject_Z 10000) with 10000%Q in Hhi.
    split.
    + apply Qle_shift_div_l; [reflexivity | lra].
    + apply Qle_shift_div_r; [reflexivity | lra].
  - exists 0%Q. split; [reflexivity | split; discriminate].
Qed.

(** X18. In exact arithmetic the anomaly percentage the API reports is
    a number between 0 and 100 whenever the count is between 0 and the
    number of points, as it is for the count [detect] returns on the
    values of the series; it is 100 when every point is flagged and 0
    when none is or when the series is empty. *)
Theorem anomaly_percentage_bounds :
  (forall anomaly_count total_points : Z,
     0 <= anomaly_count <= total_points ->
     exists q, anomaly_percentage (F:=Exact.t) anomaly_count total_points = Exact.Num q /\
               (0 <= q <= 100)%Q) /\
  (forall (settings : Settings Exact.t) ext clock timestamps values method sensitivity,
     externals_keep_shape ext ->
     let r := detect settings ext clock timestamps values method sensitivity in
     exists q, anomaly_percentage (Result.anomaly_count r) (len values) = Exact.Num q /\
               (0 <= q <= 100)%Q) /\
  (forall total_points : Z,
     0 < total_points ->
     anomaly_percentage (F:=Exact.t) total_points total_points = of_int 100) /\
  (forall total_points : Z,
     anomaly_percentage (F:=Exact.t) 0 total_points = of_int 0).
Proof.
  split; [exact anomaly_percentage_range|]. split; [|split].
  - intros settings ext clock timestamps values method sensitivity Hext r.
    apply anomaly_percentage_range. now apply detect_count.
  - intros t Ht. unfold anomaly_percentage.
    destruct (Z.ltb_spec 0 t) as [_|]; [|lia].
    assert (Ha : is_num (fmul (truediv (F:=Exact.t) t t) (of_int 100)) 100).
    { assert (E : (inject_Z t / inject_Z t * 100 == 100)%Q).
      { field. intros E. apply (inject_Z_nonzero t); [lia | exact E]. }
      pose proof (is_num_mul _ _ _ _ (is_num_truediv t t ltac:(lia)) (is_num_of_int 100))
        as Hm.
      destruct (fmul _ _); [|contradiction]. cbn in *. now rewrite Hm. }
    now rewrite (is_num_round 2 _ 100 Ha).
  - intros t. unfold anomaly_percentage.
    destruct (Z.ltb_spec 0 t) as [Ht|]; [|reflexivity].
    assert (Ha : is_num (fmul (truediv (F:=Exact.t) 0 t) (of_int 100)) 0).
    { assert (E : (inject_Z 0 / inject_Z t * 100 == 0)%Q).
      { field. intros E. apply (inject_Z_nonzero t); [lia | exact E]. }
      pose proof (is_num_mul _ _ _ _ (is_num_truediv 0 t ltac:(lia)) (is_num_of_int 100))
        as Hm.
      destruct (fmul _ _); [|contradiction]. cbn in *. now rewrite Hm. }
    now rewrite (is_num_round 2 _ 0 Ha).
Qed.

Lemma anomaly_percentage_bounds_witness :
  exists q, anomaly_percentage (F:=Exact.t) 1 3 = Exact.Num q /\ (0 <= q <= 100)%Q.
Proof. apply (proj1 anomaly_percentage_bounds). lia. Defined.



(** ** The priority ranks by score, size and duration *)

Lemma round_half_even_mono (a b : Q) :
  (a <= b)%Q -> round_half_even a <= round_half_even b.
Proof.
  intros Hab. unfold round_half_even.
  pose proof (Qfloor_resp_le a b Hab) as Hf.
  pose proof (Qfloor_le a) as Hla. pose proof (Qlt_floor a) as Hua.
  pose proof (Qfloor_le b) as Hlb. pose proof (Qlt_floor b) as Hub.
  destruct (Z.eq_dec (Qfloor a) (Qfloor b)) as [E|E].
  - rewrite <- E in *.
    destruct (Qcompare_spec (a - inject_Z (Qfloor a)) (1 # 2)) as [Ha|Ha|Ha];
      destruct (Qcompare_spec (b - inject_Z (Qfloor a)) (1 # 2)) as [Hb|Hb|Hb];
      try destruct (Z.even (Qfloor a)); try lia; exfalso; lra.
  - assert (Hlt : Qfloor a + 1 <= Qfloor b) by lia.
    destruct (Qcompare _ _); destruct (Qcompare _ _);
      try destruct (Z.even (Qfloor a)); try destruct (Z.even (Qfloor b)); lia.
Qed.

Lemma priority_spec_mono (max_score max_score' duration duration' : Q) (points points' : Z) :
  (max_score <= max_score')%Q -> points <= points' -> (duration <= duration')%Q ->
  (priority_spec max_score points duration
   <= priority_spec max_score' points' duration')%Q.
Proof.
  intros Hs Hp Hd. unfold priority_spec, round_3_places.
  apply Qle_shift_div_l; [reflexivity|].
  set (a := (_ + _ + _)%Q). set (b := (_ + _ + _)%Q).
  assert (Hab : (a <= b)%Q).
  { subst a b.
    assert (Hpn : (Qmin (inject_Z points / 10) 1 <= Qmin (inject_Z points' / 10) 1)%Q).
    { apply Q.min_le_compat_r. apply Qmult_le_compat_r; [|discriminate].
      now rewrite <- Zle_Qle. }
    assert (Hdn : (Qmin (duration / 600) 1 <= Qmin (duration' / 600) 1)%Q).
    { apply Q.min_le_compat_r. apply Qmult_le_compat_r; [exact Hd | discriminate]. }
    lra. }
  assert (Hr : round_half_even (a * 1000) <= round_half_even (b * 1000)).
  { apply round_half_even_mono. lra. }
  rewrite Zle_Qle in Hr.
  assert (E : (inject_Z (round_half_even (a * 1000)) / 1000 * 1000
               == inject_Z (round_half_even (a * 1000)))%Q) by field.
  now rewrite E.
Qed.

(** X20. In exact arithmetic the priority ranks: an event with a score
    at least as large, at least as many points and lasting at least as
    long as another has a priority at least as large. *)
Theorem calculate_priority_monotone (max_score max_score' duration duration' : Q)
    (points points' : Z) :
  (max_score <= max_score')%Q -> points <= points' -> (duration <= duration')%Q ->
  fleb (_calculate_priority (Exact.Num max_score) points (Exact.Num duration))
       (_calculate_priority (Exact.Num max_score') points' (Exact.Num duration'))
  = true.
Proof.
  intros Hs Hp Hd.
  rewrite (calculate_priority_exact (Exact.Num max_score) (Exact.Num duration)
             max_score duration points (Qeq_refl _) (Qeq_refl _)).
  rewrite (calculate_priority_exact (Exact.Num max_score') (Exact.Num duration')
             max_score' duration' points' (Qeq_refl _) (Qeq_refl _)).
  cbn. apply Qle_bool_iff. rewrite !Qred_correct. now apply priority_spec_mono.
Qed.

Lemma calculate_priority_monotone_witness :
  fleb (_calculate_priority (Exact.Num (1 # 2)) 2 (Exact.Num 60))
       (_calculate_priority (Exact.Num (9 # 10)) 3 (Exact.Num 60))
  = true.
Proof. apply calculate_priority_monotone; [discriminate | lia | discriminate]. Defined.

(** ** The moving-average scorer looks back only *)

Section Causal.
Context `{Float F} (self : MovingAverageDetector.t (F:=F)).

Local Abbreviation w := (MovingAverageDetector.window_size self) (only parsing).

Lemma moving_average_lookup (X : list F) :
  0 <= w <= len X ->
  exists z_scores,
    length z_scores = length X /\
    (forall i : nat, z_scores !! i = local_z_score w X i <$> X !! i) /\
    MovingAverageDetector.predict self X
    = Returns
        (map (fun z => fltb (MovingAverageDetector.threshold self) z)
             (pd.set_head w (of_int 0) z_scores),
         map (fun z => np.clip
                         (fdiv z (fmul (MovingAverageDetector.threshold self) (of_int 2)))
                         (of_int 0) (of_int 1))
             (pd.set_head w (of_int 0) z_scores)).
Proof.
  intros [Hw0 Hwn]. unfold MovingAverageDetector.predict.
  destruct (Z.ltb_spec (len X) w); [lia|].
  unfold pd.rolling. destruct (Z.ltb_spec w 0); [lia|].
  cbn [mbind outcome_bind].
  eexists. split; [|split; [|reflexivity]].
  - unfold np.abs, pd.replace.
    rewrite length_map, !length_zip_with, !length_map, length_seq. lia.
  - intros i. unfold np.abs, pd.replace.
    rewrite list_lookup_fmap, !lookup_zip_with, !list_lookup_fmap.
    destruct (X !! i) as [x|] eqn:Hx; [|reflexivity].
    pose proof (lookup_lt_Some _ _ _ Hx) as Hi.
    rewrite lookup_seq_lt by exact Hi.
    cbn [fmap option_fmap option_map mbind option_bind Nat.add]. reflexivity.
Qed.

Lemma local_z_score_app (X Y : list F) (i : nat) (x : F) :
  0 <= w -> (i < length X)%nat ->
  local_z_score w (X ++ Y) i x = local_z_score w X i x.
Proof.
  intros Hw Hi. unfold local_z_score.
  destruct (Z.ltb_spec (Z.of_nat (S i)) w) as [|Hge]; [reflexivity|].
  replace (firstn (Z.to_nat w) (skipn (S i - Z.to_nat w) (X ++ Y)))
    with (firstn (Z.to_nat w) (skipn (S i - Z.to_nat w) X)); [reflexivity|].
  rewrite skipn_app.
  replace (S i - Z.to_nat w - length X)%nat with 0%nat by lia.
  cbn [skipn]. rewrite firstn_app.
  replace (Z.to_nat w - length (skipn (S i - Z.to_nat w) X))%nat with 0%nat
    by (rewrite length_skipn; lia).
  cbn [firstn]. now rewrite app_nil_r.
Qed.

Lemma moving_average_causal (X Y : list F) :
  0 <= w <= len X ->
  exists anomalies scores anomalies' scores',
    MovingAverageDetector.predict self X = Returns (anomalies, scores) /\
    MovingAverageDetector.predict self (X ++ Y) = Returns (anomalies', scores') /\
    firstn (length X) anomalies' = anomalies /\
    firstn (length X) scores' = scores.
Proof.
  intros Hw.
  destruct (moving_average_lookup X Hw) as (z & Hlen & Hz & ->).
  assert (Hw' : 0 <= w <= len (X ++ Y)).
  { unfold len in *. rewrite length_app. lia. }
  destruct (moving_average_lookup (X ++ Y) Hw') as (z' & Hlen' & Hz' & ->).
  eexists _, _, _, _. split; [reflexivity|]. split; [reflexivity|].
  assert (E : firstn (length X) (pd.set_head w (of_int 0) z')
              = pd.set_head w (of_int 0) z).
  { apply list_eq. intros i.
    destruct (Nat.lt_ge_cases i (length X)) as [Hi|Hi].
    2: { rewrite !lookup_ge_None_2; [reflexivity | |].
         - rewrite length_set_head. lia.
         - rewrite length_firstn. lia. }
    rewrite lookup_take. destruct (decide (i < length X)%nat) as [_|]; [|lia].
    rewrite length_app in Hlen'.
    destruct (Z.lt_ge_cases (Z.of_nat i) w) as [Hiw|Hiw].
    - rewrite !lookup_set_head by (auto; lia). reflexivity.
    - rewrite !lookup_set_head_ge by lia.
      rewrite Hz, Hz', lookup_app_l by exact Hi.
      destruct (X !! i) as [x|]; [|reflexivity].
      cbn [fmap option_fmap option_map]. f_equal.
      apply local_z_score_app; [lia | exact Hi]. }
  rewrite !firstn_map, E. split; reflexivity.
Qed.

End Causal.

(** X21. The moving-average scorer looks back only: on a series at
    least as long as the window, the flags and the scores of its points
    are those they have in any longer series that starts with it. In any
    arithmetic. *)
Theorem moving_average_looks_back_only `{Float F} (self : MovingAverageDetector.t)
    (X Y : list F) :
  0 <= MovingAverageDetector.window_size self <= len X ->
  exists anomalies scores anomalies' scores',
    MovingAverageDetector.fit_predict self X = Returns (anomalies, scores) /\
    MovingAverageDetector.fit_predict self (X ++ Y) = Returns (anomalies', scores') /\
    firstn (length X) anomalies' = anomalies /\
    firstn (length X) scores' = scores.
Proof. apply moving_average_causal. Qed.

Lemma moving_average_looks_back_only_witness :
  exists anomalies scores anomalies' scores',
    MovingAverageDetector.fit_predict
      {| MovingAverageDetector.window_size := 2;
         MovingAverageDetector.threshold := 1%float |}
      [1%float; 2%float; 9%float] = Returns (anomalies, scores) /\
    MovingAverageDetector.fit_predict
      {| MovingAverageDetector.window_size := 2;
         MovingAverageDetector.threshold := 1%float |}
      ([1%float; 2%float; 9%float] ++ [2%float; 70%float])
    = Returns (anomalies', scores') /\
    firstn 3 anomalies' = anomalies /\
    firstn 3 scores' = scores.
Proof.
  apply (moving_average_looks_back_only
           {| MovingAverageDetector.window_size := 2;
              MovingAverageDetector.threshold := 1%float |}
           [1%float; 2%float; 9%float] [2%float; 70%float]).
  unfold len. cbn. lia.
Defined.
